(** * mentormatch backend: the profile controller and the error middleware

    A shallow embedding of [profileController] (getProfile, updateProfile,
    updateAssessment, deleteAssessmentResults, updateCustomId, checkCustomId,
    updateProfilePhoto, deleteUser, checkUsername) and of [errorHandler],
    over a model of the two tables the SQL statements touch.

    Conventions.
    - A JavaScript value taken from the request is a [json] value, and a
      property that may be [undefined] is an [option json].
    - Strings are sequences of code units below 256.
    - SQL NULL is [None].
    - The handlers are written in a state-and-exception monad [M] over a
      [world]: the committed tables, the working copy of an open transaction,
      the files on disk, a schedule of failures for database and file system
      calls, and the trace of the calls made so far. *)

From Stdlib Require Import ZArith Ascii String List Bool Lia.
From stdpp Require Import base option list strings gmap.

Set Warnings "-register-all".
Local Open Scope string_scope.
Local Open Scope Z_scope.

(** ** JavaScript values *)

(** A parsed JSON value.  Numbers are integers: the controller only tests
    a number for being zero. *)

Inductive json : Type :=
| JNull
| JBool (b : bool)
| JNum (n : Z)
| JStr (s : string)
| JArr (items : list json)
| JObj (fields : list (string * json)).

(** [x || y], [!x], [if (x)]: which values count as true.  [undefined] is
    the [None] of an [option json]. *)
Definition truthy (v : json) : bool :=
  match v with
  | JNull => false
  | JBool b => b
  | JNum n => negb (n =? 0)
  | JStr s => negb (String.eqb s "")
  | JArr _ | JObj _ => true
  end.

Definition js_truthy (v : option json) : bool :=
  match v with
  | None => false
  | Some x => truthy x
  end.

Fixpoint assoc (k : string) (fields : list (string * json)) : option json :=
  match fields with
  | [] => None
  | (k', v) :: rest => if String.eqb k k' then Some v else assoc k rest
  end.

(** Property access [v.k] on a parsed JSON value. *)
Definition jget (k : string) (v : json) : option json :=
  match v with
  | JObj fields => assoc k fields
  | _ => None
  end.

(** An object literal [{k1: v1, ...}] as [JSON.stringify] sends it: a
    property whose value is [undefined] is left out. *)
Fixpoint defined_fields (fields : list (string * option json)) : list (string * json) :=
  match fields with
  | [] => []
  | (k, None) :: rest => defined_fields rest
  | (k, Some v) :: rest => (k, v) :: defined_fields rest
  end.

Definition obj (fields : list (string * option json)) : json :=
  JObj (defined_fields fields).

Definition of_text (s : option string) : json :=
  match s with
  | None => JNull
  | Some x => JStr x
  end.

Definition of_jsonb (v : option json) : json :=
  match v with
  | None => JNull
  | Some x => x
  end.

(** ** Strings *)

Definition code (c : ascii) : N := N_of_ascii c.

(** White space as [String.prototype.trim] sees it, among the code units
    below 256: TAB, LF, VT, FF, CR, SPACE and NO-BREAK SPACE. *)
Definition is_white_space (c : ascii) : bool :=
  let n := code c in
  ((9 <=? n) && (n <=? 13) || (n =? 32) || (n =? 160))%N.

Fixpoint trim_start (s : string) : string :=
  match s with
  | EmptyString => EmptyString
  | String c rest => if is_white_space c then trim_start rest else s
  end.

Fixpoint trim_end (s : string) : string :=
  match s with
  | EmptyString => EmptyString
  | String c rest =>
      match trim_end rest with
      | EmptyString => if is_white_space c then EmptyString else String c EmptyString
      | kept => String c kept
      end
  end.

Definition trim (s : string) : string := trim_end (trim_start s).

Fixpoint all_chars (p : ascii -> bool) (s : string) : bool :=
  match s with
  | EmptyString => true
  | String c rest => p c && all_chars p rest
  end.

(** [email.split('@')[0]]: the part of the string before the first ['@'],
    the whole string when there is none. *)
Fixpoint split_at_first (s : string) : string :=
  match s with
  | EmptyString => EmptyString
  | String c rest =>
      if Ascii.eqb c "@"%char then EmptyString else String c (split_at_first rest)
  end.

(** The character class [[a-zA-Z0-9_]]. *)
Definition is_word_char (c : ascii) : bool :=
  let n := code c in
  ((97 <=? n) && (n <=? 122) || (65 <=? n) && (n <=? 90)
   || (48 <=? n) && (n <=? 57) || (n =? 95))%N.

(** [/^[a-zA-Z0-9_]{1,30}$/.test(username)] *)
Definition username_format_ok (username : string) : bool :=
  (1 <=? String.length username)%nat && (String.length username <=? 30)%nat
  && all_chars is_word_char username.

(** ** Errors and responses *)

(** A thrown value.  [is_Error] is [err instanceof Error]; [as_string] is
    [String(err)]. *)
Record js_error : Type := {
  is_Error : bool;
  message : string;
  statusCode : option Z;
  stack : string;
  as_string : string
}.

Definition Error (msg : string) : js_error :=
  {| is_Error := true; message := msg; statusCode := None;
     stack := ""; as_string := "Error: " ++ msg |}.

Definition TypeError (msg : string) : js_error :=
  {| is_Error := true; message := msg; statusCode := None;
     stack := ""; as_string := "TypeError: " ++ msg |}.

(** What [res.status(s).json(b)] sends.  [res.json(undefined)] sends no
    body. *)
Record response : Type := {
  status : Z;
  body : option json
}.

Definition res_status_json (s : Z) (b : option json) : response :=
  {| status := s; body := b |}.

Definition res_json (b : option json) : response := res_status_json 200 b.

(** The response carries a JSON body with an [error] property. *)
Definition has_error_field (r : response) : Prop :=
  exists b e, body r = Some b /\ jget "error" b = Some e.

(** What lies outside the repository: the working directory and the mode
    of the process, the text node-postgres sends for a parameter that is
    neither a string nor null, the text PostgreSQL's [->>] gives for a JSON
    value that is neither a string nor null, and Node's [path.join]. *)
Record env : Type := {
  cwd : string;
  development : bool;
  pg_text : json -> string;
  jsonb_text : json -> string;
  path_join : string -> string -> string
}.

(** ** The tables *)

(** A row of [users], keyed by [id].  The bookkeeping column [updated_at],
    which the UPDATE statements set to CURRENT_TIMESTAMP and which nothing
    reads, is left out: time is not modelled. *)
Record user_row : Type := {
  u_email : option string;
  u_display_name : option string;
  u_photo_url : option string;
  u_custom_user_id : option string
}.

(** A row of [user_profiles], keyed by [user_id]. *)
Record profile_row : Type := {
  p_major : option string;
  p_interests : json;
  p_completed_assessments : Z;
  p_assessment_results : option json
}.

Record tables : Type := {
  users : gmap string user_row;
  user_profiles : gmap string profile_row
}.

(** Modelled from the spec: the column defaults of the schema, which is not
    among the sources.  A row inserted without them has no photo and no
    custom id (users), no major, no interests, a counter at 0 and no
    assessment results (user_profiles). *)
Definition new_user (email display_name : option string) : user_row :=
  {| u_email := email; u_display_name := display_name;
     u_photo_url := None; u_custom_user_id := None |}.

Definition default_profile : profile_row :=
  {| p_major := None; p_interests := JArr [];
     p_completed_assessments := 0; p_assessment_results := None |}.

(** Rows as the driver hands them to the handler, with the columns of the
    two records above. *)
Definition user_json (id : string) (u : user_row) : json :=
  JObj [("id", JStr id); ("email", of_text (u_email u));
        ("display_name", of_text (u_display_name u));
        ("photo_url", of_text (u_photo_url u));
        ("custom_user_id", of_text (u_custom_user_id u))].

Definition profile_json (id : string) (p : profile_row) : json :=
  JObj [("user_id", JStr id); ("major", of_text (p_major p));
        ("interests", p_interests p);
        ("completed_assessments", JNum (p_completed_assessments p));
        ("assessment_results", of_jsonb (p_assessment_results p))].

(** A row of [users u LEFT JOIN user_profiles up]: the profile columns are
    null when there is no profile row. *)
Definition joined_json (id : string) (u : user_row) (p : option profile_row) : json :=
  JObj [("id", JStr id); ("email", of_text (u_email u));
        ("display_name", of_text (u_display_name u));
        ("photo_url", of_text (u_photo_url u));
        ("custom_user_id", of_text (u_custom_user_id u));
        ("major", from_option (fun r => of_text (p_major r)) JNull p);
        ("interests", from_option p_interests JNull p);
        ("completed_assessments",
          from_option (fun r => JNum (p_completed_assessments r)) JNull p);
        ("assessment_results",
          from_option (fun r => of_jsonb (p_assessment_results r)) JNull p)].

(** ** The SQL statements of the controller *)

(** One constructor per statement text, with its parameters already in the
    form the driver sends them. *)
Inductive stmt : Type :=
| BEGIN
| COMMIT
| ROLLBACK
| SELECT_profile (left_join : bool) (id : option string)
| INSERT_user (id email display_name : option string)
| INSERT_profile (id : option string)
| UPDATE_user (custom_user_id : option string) (display_name : string) (id : option string)
| UPDATE_profile (major : option string) (interests : json) (id : option string)
| SELECT_profile_exists (id : option string)
| INSERT_assessment (id : option string) (results : option json)
| UPDATE_assessment (results : option json) (id : option string)
| UPDATE_delete_results (dates : list (option string)) (n : Z) (id : option string)
| SELECT_custom_id_holder (custom_user_id : option string) (id : option string)
| UPDATE_custom_id (custom_user_id : option string) (id : option string)
| UPDATE_photo (photo_url : string) (id : option string)
| SELECT_photo (id : option string)
| DELETE_profile (id : option string)
| DELETE_user (id : option string).

(** [WHERE id = $1]: a NULL parameter matches no row. *)
Definition row_of {A : Type} (id : option string) (m : gmap string A) : option (string * A) :=
  match id with
  | None => None
  | Some k => match m !! k with
              | None => None
              | Some r => Some (k, r)
              end
  end.

Definition set_users (us : gmap string user_row) (t : tables) : tables :=
  {| users := us; user_profiles := user_profiles t |}.

Definition set_profiles (ps : gmap string profile_row) (t : tables) : tables :=
  {| users := users t; user_profiles := ps |}.

(** [x != ANY(arr)] in a WHERE clause: the row passes when [x] is not null
    and differs from at least one non-null element of [arr]. *)
Definition ne_any (x : option string) (arr : list (option string)) : bool :=
  match x with
  | None => false
  | Some s =>
      existsb (fun d => match d with
                        | None => false
                        | Some t => negb (String.eqb s t)
                        end) arr
  end.

(** [jsonb_agg] over the selected elements: NULL when none is selected. *)
Definition jsonb_agg (selected : list json) : option json :=
  match selected with
  | [] => None
  | _ => Some (JArr selected)
  end.

(** The users other than [id] whose custom id is [custom_user_id]:
    [WHERE custom_user_id = $1 AND id != $2]. *)
Definition holds_custom_id (custom_user_id id : option string) (row : string * user_row) : bool :=
  match custom_user_id, id with
  | Some c, Some me =>
      match u_custom_user_id (snd row) with
      | Some c' => String.eqb c' c && negb (String.eqb (fst row) me)
      | None => false
      end
  | _, _ => false
  end.

(** ** The world and the monad of the handlers *)

Inductive event : Type :=
| Connect
| Release
| ClientQuery (s : stmt)
| PoolQuery (s : stmt)
| ExistsSync (path : string)
| MkdirSync (path : string)
| Unlink (path : string)
| Upload
| ConsoleLog (label : string)
| ConsoleError (label : string) (e : js_error).

(** [committed] is the database as every session sees it; [txn] is the
    working copy of the transaction open on the handler's client, if any.
    Each call to the database takes the head of [db_faults] and fails with
    it when it is an error; each call that changes the disk does the same
    with [fs_faults].  An empty schedule means no failure. *)
Record world : Type := {
  committed : tables;
  txn : option tables;
  db_faults : list (option js_error);
  files : gset string;
  fs_faults : list (option js_error);
  trace : list event
}.

Inductive outcome (A : Type) : Type :=
| Returned (a : A)
| Thrown (e : js_error).
Arguments Returned {A} a.
Arguments Thrown {A} e.

Definition M (A : Type) : Type := world -> outcome A * world.

#[export] Instance M_ret : MRet M := fun A a w => (Returned a, w).

#[export] Instance M_bind : MBind M := fun A B k c w =>
  match c w with
  | (Returned a, w') => k a w'
  | (Thrown e, w') => (Thrown e, w')
  end.

Definition throw {A : Type} (e : js_error) : M A := fun w => (Thrown e, w).

Definition try_catch {A : Type} (block : M A) (handler : js_error -> M A) : M A :=
  fun w =>
    match block w with
    | (Returned a, w') => (Returned a, w')
    | (Thrown e, w') => handler e w'
    end.

Definition try_finally {A : Type} (block : M A) (finalizer : M unit) : M A :=
  fun w =>
    let '(o, w1) := block w in
    match finalizer w1 with
    | (Returned _, w2) => (o, w2)
    | (Thrown e, w2) => (Thrown e, w2)
    end.

Definition log (ev : event) (w : world) : world :=
  {| committed := committed w; txn := txn w; db_faults := db_faults w;
     files := files w; fs_faults := fs_faults w; trace := trace w ++ [ev] |}.

Definition set_committed (t : tables) (w : world) : world :=
  {| committed := t; txn := txn w; db_faults := db_faults w;
     files := files w; fs_faults := fs_faults w; trace := trace w |}.

Definition set_txn (t : option tables) (w : world) : world :=
  {| committed := committed w; txn := t; db_faults := db_faults w;
     files := files w; fs_faults := fs_faults w; trace := trace w |}.

Definition set_files (fs : gset string) (w : world) : world :=
  {| committed := committed w; txn := txn w; db_faults := db_faults w;
     files := fs; fs_faults := fs_faults w; trace := trace w |}.

Definition pop_db_fault (w : world) : option js_error * world :=
  (mjoin (head (db_faults w)),
   {| committed := committed w; txn := txn w; db_faults := tail (db_faults w);
      files := files w; fs_faults := fs_faults w; trace := trace w |}).

Definition pop_fs_fault (w : world) : option js_error * world :=
  (mjoin (head (fs_faults w)),
   {| committed := committed w; txn := txn w; db_faults := db_faults w;
      files := files w; fs_faults := tail (fs_faults w); trace := trace w |}).

Definition console_error (label : string) (e : js_error) : M unit :=
  fun w => (Returned tt, log (ConsoleError label e) w).

Definition console_log (label : string) : M unit :=
  fun w => (Returned tt, log (ConsoleLog label) w).

(** [pool.connect()] *)
Definition pool_connect : M unit :=
  fun w =>
    match pop_db_fault (log Connect w) with
    | (Some e, w') => (Thrown e, w')
    | (None, w') => (Returned tt, w')
    end.

(** [client.release()] *)
Definition client_release : M unit :=
  fun w => (Returned tt, log Release w).

(** The tables a statement on the client runs against. *)
Definition session (w : world) : tables :=
  match txn w with
  | Some t => t
  | None => committed w
  end.

Definition set_session (t : tables) (w : world) : world :=
  match txn w with
  | Some _ => set_txn (Some t) w
  | None => set_committed t w
  end.

(** [fs.existsSync(path)] *)
Definition fs_existsSync (path : string) : M bool :=
  fun w => (Returned (bool_decide (path ∈ files w)), log (ExistsSync path) w).

(** [fs.mkdirSync(path, { recursive: true })] *)
Definition fs_mkdirSync (path : string) : M unit :=
  fun w =>
    match pop_fs_fault (log (MkdirSync path) w) with
    | (Some e, w') => (Thrown e, w')
    | (None, w') => (Returned tt, set_files ({[path]} ∪ files w') w')
    end.

(** [fs.promises.unlink(path)]: fails when the schedule says so and when
    there is no such file. *)
Definition fs_unlink (path : string) : M unit :=
  fun w =>
    match pop_fs_fault (log (Unlink path) w) with
    | (Some e, w') => (Thrown e, w')
    | (None, w') =>
        if bool_decide (path ∈ files w')
        then (Returned tt, set_files (files w' ∖ {[path]}) w')
        else (Thrown (Error "ENOENT: no such file or directory"), w')
    end.

(** ** Values of the request *)

(** [req.user], as the authentication middleware leaves it. *)
Record auth_user : Type := {
  uid : option string;
  email : option string
}.

(** [x || null] *)
Definition or_null (v : option json) : option json :=
  if js_truthy v then v else Some JNull.

(** [x || []] *)
Definition or_empty_array (v : option json) : json :=
  match v with
  | Some x => if truthy x then x else JArr []
  | None => JArr []
  end.

(** [display_name.trim()]: only a string has the method. *)
Definition js_trim (v : option json) : M string :=
  match v with
  | Some (JStr s) => mret (trim s)
  | _ => throw (TypeError "display_name.trim is not a function")
  end.

(** [JSON.stringify(results)] bound to a [$n::jsonb] parameter: the stored
    value is the payload again; [JSON.stringify(undefined)] is [undefined],
    which the driver sends as NULL. *)
Definition jsonb_param (results : option json) : option json := results.

(** What the upload middleware hands to the callback of
    [updateProfilePhoto]: an error, no file, or the stored file's name. *)
Inductive upload_result : Type :=
| UploadError (err : js_error)
| NoFile
| Stored (filename : string).

Section Controller.

Variable E : env.

(** [result->>'date'] on an element of the stored array. *)
Definition field_text (k : string) (v : json) : option string :=
  match jget k v with
  | None | Some JNull => None
  | Some (JStr s) => Some s
  | Some other => Some (jsonb_text E other)
  end.

(** A parameter bound to a text column or compared with one. *)
Definition param_text (v : option json) : option string :=
  match v with
  | None | Some JNull => None
  | Some (JStr s) => Some s
  | Some other => Some (pg_text E other)
  end.

(** The new value of [assessment_results] in [UPDATE_delete_results]:
    [(SELECT jsonb_agg(result) FROM jsonb_array_elements(assessment_results)
      result WHERE result->>'date' != ANY($1))]. *)
Definition remaining_results (dates : list (option string)) (stored : option json)
  : js_error + option json :=
  match stored with
  | None => inr None
  | Some (JArr items) =>
      inr (jsonb_agg (List.filter (fun result => ne_any (field_text "date" result) dates) items))
  | Some (JObj _) => inl (Error "cannot extract elements from an object")
  | Some _ => inl (Error "cannot extract elements from a scalar")
  end.

(** Modelled from the spec: the foreign key of the schema, which is not
    among the sources.  [user_profiles.user_id] refers to [users.id] ("a
    UserProfile cannot exist without a corresponding User"): a profile row
    is accepted only for an id that has a row in [users]. *)
Definition foreign_key_ok (k : string) (t : tables) : bool :=
  match users t !! k with
  | Some _ => true
  | None => false
  end.

(** The effect of a statement on the tables it runs against, and the rows
    it returns.  The conflict targets [id] and [user_id] are keys, and an
    insert into [user_profiles] is checked against the foreign key; any
    other reason a statement may fail (the connection, a value the engine
    refuses) is a failure of the schedule in [world]. *)
Definition exec (s : stmt) (t : tables) : js_error + (list json * tables) :=
  match s with
  | BEGIN | COMMIT | ROLLBACK => inr ([], t)
  | SELECT_profile left_join id =>
      match row_of id (users t) with
      | None => inr ([], t)
      | Some (k, u) =>
          match user_profiles t !! k with
          | None => inr (if left_join then [joined_json k u None] else [], t)
          | Some p => inr ([joined_json k u (Some p)], t)
          end
      end
  | INSERT_user id email display_name =>
      match id with
      | None => inl (Error "null value in column id")
      | Some k =>
          match users t !! k with
          | Some _ => inr ([], t)
          | None => inr ([], set_users (<[k := new_user email display_name]> (users t)) t)
          end
      end
  | INSERT_profile id =>
      match id with
      | None => inl (Error "null value in column user_id")
      | Some k =>
          match user_profiles t !! k with
          | Some _ => inr ([], t)
          | None =>
              if foreign_key_ok k t
              then inr ([], set_profiles (<[k := default_profile]> (user_profiles t)) t)
              else inl (Error "insert on user_profiles violates foreign key constraint")
          end
      end
  | UPDATE_user custom_user_id display_name id =>
      match row_of id (users t) with
      | None => inr ([], t)
      | Some (k, u) =>
          let u' := {| u_email := u_email u; u_display_name := Some display_name;
                       u_photo_url := u_photo_url u;
                       u_custom_user_id := custom_user_id |} in
          inr ([], set_users (<[k := u']> (users t)) t)
      end
  | UPDATE_profile major interests id =>
      match row_of id (user_profiles t) with
      | None => inr ([], t)
      | Some (k, p) =>
          let p' := {| p_major := major; p_interests := interests;
                       p_completed_assessments := p_completed_assessments p;
                       p_assessment_results := p_assessment_results p |} in
          inr ([], set_profiles (<[k := p']> (user_profiles t)) t)
      end
  | SELECT_profile_exists id =>
      match row_of id (user_profiles t) with
      | None => inr ([], t)
      | Some _ => inr ([JObj [("?column?", JNum 1)]], t)
      end
  | INSERT_assessment id results =>
      match id with
      | None => inl (Error "null value in column user_id")
      | Some k =>
          match user_profiles t !! k with
          | Some _ => inl (Error "duplicate key value violates unique constraint")
          | None =>
              let p := {| p_major := p_major default_profile;
                          p_interests := p_interests default_profile;
                          p_completed_assessments := 1;
                          p_assessment_results := results |} in
              if foreign_key_ok k t
              then inr ([profile_json k p], set_profiles (<[k := p]> (user_profiles t)) t)
              else inl (Error "insert on user_profiles violates foreign key constraint")
          end
      end
  | UPDATE_assessment results id =>
      match row_of id (user_profiles t) with
      | None => inr ([], t)
      | Some (k, p) =>
          let p' := {| p_major := p_major p; p_interests := p_interests p;
                       p_completed_assessments := p_completed_assessments p + 1;
                       p_assessment_results := results |} in
          inr ([profile_json k p'], set_profiles (<[k := p']> (user_profiles t)) t)
      end
  | UPDATE_delete_results dates n id =>
      match row_of id (user_profiles t) with
      | None => inr ([], t)
      | Some (k, p) =>
          match remaining_results dates (p_assessment_results p) with
          | inl e => inl e
          | inr results =>
              let p' := {| p_major := p_major p; p_interests := p_interests p;
                           p_completed_assessments := p_completed_assessments p - n;
                           p_assessment_results := results |} in
              inr ([profile_json k p'], set_profiles (<[k := p']> (user_profiles t)) t)
          end
      end
  | SELECT_custom_id_holder custom_user_id id =>
      inr (List.map (fun row => JObj [("id", JStr (fst row))])
             (List.filter (holds_custom_id custom_user_id id) (map_to_list (users t))), t)
  | UPDATE_custom_id custom_user_id id =>
      match row_of id (users t) with
      | None => inr ([], t)
      | Some (k, u) =>
          let u' := {| u_email := u_email u; u_display_name := u_display_name u;
                       u_photo_url := u_photo_url u;
                       u_custom_user_id := custom_user_id |} in
          inr ([user_json k u'], set_users (<[k := u']> (users t)) t)
      end
  | UPDATE_photo photo_url id =>
      match row_of id (users t) with
      | None => inr ([], t)
      | Some (k, u) =>
          let u' := {| u_email := u_email u; u_display_name := u_display_name u;
                       u_photo_url := Some photo_url;
                       u_custom_user_id := u_custom_user_id u |} in
          inr ([JObj [("photo_url", JStr photo_url)]], set_users (<[k := u']> (users t)) t)
      end
  | SELECT_photo id =>
      match row_of id (users t) with
      | None => inr ([], t)
      | Some (k, u) => inr ([JObj [("photo_url", of_text (u_photo_url u))]], t)
      end
  | DELETE_profile id =>
      match id with
      | None => inr ([], t)
      | Some k => inr ([], set_profiles (delete k (user_profiles t)) t)
      end
  | DELETE_user id =>
      match id with
      | None => inr ([], t)
      | Some k => inr ([], set_users (delete k (users t)) t)
      end
  end.

(** [client.query(s)]: inside a transaction the statement works on the
    transaction's copy, which COMMIT publishes and ROLLBACK drops. *)
Definition client_query (s : stmt) : M (list json) :=
  fun w =>
    match pop_db_fault (log (ClientQuery s) w) with
    | (Some e, w') => (Thrown e, w')
    | (None, w') =>
        match s with
        | BEGIN => (Returned [], set_txn (Some (session w')) w')
        | COMMIT => (Returned [], set_txn None (set_committed (session w') w'))
        | ROLLBACK => (Returned [], set_txn None w')
        | _ =>
            match exec s (session w') with
            | inl e => (Thrown e, w')
            | inr (rows, t) => (Returned rows, set_session t w')
            end
        end
    end.

(** [pool.query(s)]: one statement on a connection of its own, committed
    at once. *)
Definition pool_query (s : stmt) : M (list json) :=
  fun w =>
    match pop_db_fault (log (PoolQuery s) w) with
    | (Some e, w') => (Thrown e, w')
    | (None, w') =>
        match exec s (committed w') with
        | inl e => (Thrown e, w')
        | inr (rows, t) => (Returned rows, set_committed t w')
        end
    end.

(** ** The handlers *)

Definition getProfile (user : auth_user) : M response :=
  let userId := uid user in
  try_catch
    (pool_connect;;
     try_finally
       (try_catch
          (result ← client_query (SELECT_profile true userId);
           if (length result =? 0)%nat then
             client_query BEGIN;;
             client_query (INSERT_user userId (email user)
                             (split_at_first <$> email user));;
             client_query (INSERT_profile userId);;
             newResult ← client_query (SELECT_profile true userId);
             client_query COMMIT;;
             mret (res_json (head newResult))
           else
             mret (res_json (head result)))
          (fun err => client_query ROLLBACK;; throw err))
       client_release)
    (fun err =>
       console_error "Error fetching profile:" err;;
       mret (res_status_json 500 (Some (obj [("error", Some (JStr "Failed to fetch profile"))])))).

Definition updateProfile (user : auth_user)
    (major interests custom_user_id display_name : option json) : M response :=
  let userId := uid user in
  try_catch
    (if negb (js_truthy display_name) then
       mret (res_status_json 400 (Some (obj [("error", Some (JStr "Display name is required"))])))
     else
       trimmed ← js_trim display_name;
       if (String.length trimmed =? 0)%nat then
         mret (res_status_json 400 (Some (obj [("error", Some (JStr "Display name is required"))])))
       else
         pool_connect;;
         try_finally
           (try_catch
              (client_query BEGIN;;
               client_query (UPDATE_user (param_text (or_null custom_user_id)) trimmed userId);;
               client_query (UPDATE_profile (param_text (or_null major))
                               (or_empty_array interests) userId);;
               result ← client_query (SELECT_profile false userId);
               client_query COMMIT;;
               mret (res_json (head result)))
              (fun err => client_query ROLLBACK;; throw err))
           client_release)
    (fun err =>
       console_error "Error updating profile:" err;;
       mret (res_status_json 500
               (Some (obj [("error", Some (JStr (if is_Error err then message err
                                                 else "Failed to update profile")))])))).

Definition updateAssessment (user : auth_user) (results : option json) : M response :=
  let userId := uid user in
  try_catch
    (profileCheck ← pool_query (SELECT_profile_exists userId);
     if (length profileCheck =? 0)%nat then
       newProfile ← pool_query (INSERT_assessment userId (jsonb_param results));
       mret (res_json (head newProfile))
     else
       result ← pool_query (UPDATE_assessment (jsonb_param results) userId);
       mret (res_json (head result)))
    (fun err =>
       console_error "Error updating assessment:" err;;
       mret (res_status_json 500 (Some (obj [("error", Some (JStr "Failed to update assessment"))])))).

(** [dates] is the array of the body, or [None] when the body has none:
    [dates.length] then throws before any statement is sent.  An element
    that is not a string is sent as the driver renders it. *)
Definition deleteAssessmentResults (user : auth_user) (dates : option (list json)) : M response :=
  let userId := uid user in
  try_catch
    (match dates with
     | None => throw (TypeError "Cannot read properties of undefined (reading 'length')")
     | Some ds =>
         result ← pool_query (UPDATE_delete_results (List.map (fun d => param_text (Some d)) ds)
                                (Z.of_nat (length ds)) userId);
         if (length result =? 0)%nat then
           mret (res_status_json 404 (Some (obj [("error", Some (JStr "Profile not found"))])))
         else
           mret (res_json (head result))
     end)
    (fun err =>
       console_error "Error deleting assessment results:" err;;
       throw err).

Definition updateCustomId (user : auth_user) (custom_user_id : option json) : M response :=
  let userId := uid user in
  try_catch
    (existingUser ← pool_query (SELECT_custom_id_holder (param_text custom_user_id) userId);
     if (0 <? length existingUser)%nat then
       mret (res_status_json 400 (Some (obj [("error", Some (JStr "This user ID is already taken"))])))
     else
       result ← pool_query (UPDATE_custom_id (param_text custom_user_id) userId);
       mret (res_json (head result)))
    (fun err =>
       console_error "Error updating custom user ID:" err;;
       mret (res_status_json 500
               (Some (obj [("error", Some (JStr "Failed to update user ID"));
                           ("details",
                             if development E
                             then Some (JStr (if is_Error err then message err else as_string err))
                             else None)])))).

Definition checkCustomId (user : auth_user) (custom_user_id : option json) : M response :=
  let userId := uid user in
  try_catch
    (if negb (js_truthy custom_user_id) then
       mret (res_json (Some (obj [("available", Some (JBool true))])))
     else
       result ← pool_query (SELECT_custom_id_holder (param_text custom_user_id) userId);
       mret (res_json (Some (obj [("available", Some (JBool (length result =? 0)%nat))]))))
    (fun err =>
       console_error "Error checking custom ID:" err;;
       mret (res_status_json 500
               (Some (obj [("error", Some (JStr "Failed to check custom ID availability"))])))).

Definition upload (u : upload_result) : M upload_result :=
  fun w =>
    let w' := log Upload w in
    match u with
    | Stored filename =>
        (Returned u,
         set_files ({[path_join E (cwd E) ("./uploads/profile-photos/" ++ filename)]} ∪ files w') w')
    | _ => (Returned u, w')
    end.

Definition updateProfilePhoto (user : auth_user) (file : upload_result) : M response :=
  let userId := uid user in
  let uploadsDir := path_join E (path_join E (cwd E) "uploads") "profile-photos" in
  present ← fs_existsSync uploadsDir;
  (if negb present then fs_mkdirSync uploadsDir else mret tt);;
  uploaded ← upload file;
  match uploaded with
  | UploadError err =>
      console_error "Upload error:" err;;
      mret (res_status_json 400 (Some (obj [("error", Some (JStr (message err)))])))
  | NoFile =>
      mret (res_status_json 400 (Some (obj [("error", Some (JStr "No file uploaded"))])))
  | Stored filename =>
      try_catch
        (let photoUrl := "/uploads/profile-photos/" ++ filename in
         console_log "File saved at:";;
         pool_query (UPDATE_photo photoUrl userId);;
         mret (res_json (Some (obj [("photo_url", Some (JStr photoUrl))]))))
        (fun error =>
           console_error "Error updating profile photo:" error;;
           mret (res_status_json 500
                   (Some (obj [("error", Some (JStr "Failed to update profile photo"))]))))
  end.

(** [path.join(process.cwd(), photoUrl)]: the argument has to be a string. *)
Definition join_cwd (photoUrl : option json) : M string :=
  match photoUrl with
  | Some (JStr url) => mret (path_join E (cwd E) url)
  | _ => throw (TypeError "The path argument must be of type string")
  end.

Definition deleteUser (user : auth_user) : M response :=
  let userId := uid user in
  if negb (js_truthy (JStr <$> userId)) then
    mret (res_status_json 401 (Some (obj [("error", Some (JStr "Unauthorized"))])))
  else
    pool_connect;;
    try_finally
      (try_catch
         (client_query BEGIN;;
          userResult ← client_query (SELECT_photo userId);
          let photoUrl := head userResult ≫= jget "photo_url" in
          client_query (DELETE_profile userId);;
          client_query (DELETE_user userId);;
          client_query COMMIT;;
          (if js_truthy photoUrl then
             try_catch
               (photoPath ← join_cwd photoUrl;
                fs_unlink photoPath)
               (fun photoErr => console_error "Failed to delete profile photo:" photoErr)
           else mret tt);;
          mret (res_status_json 200 (Some (obj [("message", Some (JStr "User deleted successfully"))]))))
         (fun err =>
            client_query ROLLBACK;;
            console_error "Error deleting user:" err;;
            mret (res_status_json 500
                    (Some (obj [("error", Some (JStr (if is_Error err then message err
                                                      else "Failed to delete user")))])))))
      client_release.

Definition checkUsername (user : auth_user) (username : string) : M response :=
  let userId := uid user in
  try_catch
    (if negb (username_format_ok username) then
       mret (res_status_json 400 (Some (obj [("available", Some (JBool false));
                                             ("error", Some (JStr "Invalid username format"))])))
     else
       pool_connect;;
       try_finally
         (result ← client_query (SELECT_custom_id_holder (Some username) userId);
          mret (res_json (Some (obj [("available", Some (JBool (length result =? 0)%nat))]))))
         client_release)
    (fun error =>
       console_error "Error checking username:" error;;
       mret (res_status_json 500
               (Some (obj [("error", Some (JStr "Failed to check username availability"))])))).

(** ** The error middleware *)

(** [errorHandler(err, req, res, next)] *)
Definition errorHandler (err : js_error) : response :=
  let statusCode := match statusCode err with
                    | Some c => if c =? 0 then 500 else c
                    | None => 500
                    end in
  res_status_json statusCode
    (Some (obj [("error",
                  Some (obj [("message",
                               Some (JStr (if String.eqb (message err) "" then "Internal Server Error"
                                           else message err)));
                             ("stack",
                               if development E then Some (JStr (stack err)) else None)]))])).

(** ** The operations of the controller *)

Inductive operation : Type :=
| GetProfile (user : auth_user)
| UpdateProfile (user : auth_user) (major interests custom_user_id display_name : option json)
| UpdateAssessment (user : auth_user) (results : option json)
| DeleteAssessmentResults (user : auth_user) (dates : option (list json))
| UpdateCustomId (user : auth_user) (custom_user_id : option json)
| CheckCustomId (user : auth_user) (custom_user_id : option json)
| UpdateProfilePhoto (user : auth_user) (file : upload_result)
| DeleteUser (user : auth_user)
| CheckUsername (user : auth_user) (username : string).

Definition handler (op : operation) : M response :=
  match op with
  | GetProfile user => getProfile user
  | UpdateProfile user major interests custom_user_id display_name =>
      updateProfile user major interests custom_user_id display_name
  | UpdateAssessment user results => updateAssessment user results
  | DeleteAssessmentResults user dates => deleteAssessmentResults user dates
  | UpdateCustomId user custom_user_id => updateCustomId user custom_user_id
  | CheckCustomId user custom_user_id => checkCustomId user custom_user_id
  | UpdateProfilePhoto user file => updateProfilePhoto user file
  | DeleteUser user => deleteUser user
  | CheckUsername user username => checkUsername user username
  end.

End Controller.

(** ** Worlds in which the database answers *)

(** No transaction is open on the client the pool hands out, and no call to
    the database is scheduled to fail. *)
Definition healthy (w : world) : Prop :=
  txn w = None /\ db_faults w = [].

(** The request of an authenticated user: the middleware has set [uid],
    and [email] when the identity has one. *)
Definition authenticated (id : string) (em : option string) : auth_user :=
  {| uid := Some id; email := em |}.

(** Some user other than [id] holds the custom id [custom_user_id]. *)
Definition taken_by_other (t : tables) (custom_user_id : option string) (id : string) : Prop :=
  exists c other u,
    custom_user_id = Some c /\ other <> id
    /\ users t !! other = Some u /\ u_custom_user_id u = Some c.

(** The events of the photo cleanup of [deleteUser]. *)
Definition is_cleanup (ev : event) : bool :=
  match ev with
  | Unlink _ | ConsoleError _ _ => true
  | _ => false
  end.

(** ** What a run guarantees *)

(** [wp c Q w]: running [c] in [w] ends, by return or by throw, in an
    outcome and a world that satisfy [Q]. *)
Definition wp {A : Type} (c : M A) (Q : outcome A -> world -> Prop) (w : world) : Prop :=
  Q (fst (c w)) (snd (c w)).

Definition read_only (s : stmt) : bool :=
  match s with
  | SELECT_profile _ _ | SELECT_profile_exists _
  | SELECT_custom_id_holder _ _ | SELECT_photo _ => true
  | _ => false
  end.

Definition transaction_control (s : stmt) : bool :=
  match s with
  | BEGIN | COMMIT | ROLLBACK => true
  | _ => false
  end.

(** An operation of the monad that leaves the database alone. *)
Definition silent {A : Type} (c : M A) : Prop :=
  forall w, committed (snd (c w)) = committed w /\ txn (snd (c w)) = txn w.

(** An operation of the monad that does not throw. *)
Definition returns {A : Type} (c : M A) : Prop :=
  forall w, exists a, fst (c w) = Returned a.

(** A body that reports an error and is not a row of [users], of
    [user_profiles] or of their join. *)
Definition error_response (r : response) : Prop :=
  has_error_field r
  /\ forall b, body r = Some b -> jget "id" b = None /\ jget "user_id" b = None.

(** What every handler keeps to, [t0] being the committed tables at its
    start: an answer other than 200 is an error answer, and with it, as with
    a throw, the committed tables are those of the start. *)
Definition safe (t0 : tables) (o : outcome response) (w : world) : Prop :=
  match o with
  | Returned r => status r = 200 \/ (error_response r /\ committed w = t0)
  | Thrown _ => committed w = t0
  end.

(** ** A sample deployment *)

Definition sample_env : env :=
  {| cwd := "/srv/app"; development := false;
     pg_text := fun _ => ""; jsonb_text := fun _ => "";
     path_join := fun a b => a ++ b |}.

Definition result_of (date : string) : json :=
  JObj [("date", JStr date); ("score", JNum 7)].

Definition sample_tables : tables :=
  {| users :=
       {[ "u1" := {| u_email := Some "alice@example.org"; u_display_name := Some "alice";
                     u_photo_url := Some "/uploads/profile-photos/a.png";
                     u_custom_user_id := Some "alice_1" |};
          "u2" := {| u_email := Some "bob@example.org"; u_display_name := Some "bob";
                     u_photo_url := None; u_custom_user_id := Some "bob" |} ]};
     user_profiles :=
       {[ "u1" := {| p_major := None; p_interests := JArr [];
                     p_completed_assessments := 3;
                     p_assessment_results :=
                       Some (JArr [result_of "2024-01-01"; result_of "2024-01-02";
                                   result_of "2024-01-03"]) |} ]} |}.

Definition sample_world : world :=
  {| committed := sample_tables; txn := None; db_faults := [];
     files := ∅; fs_faults := []; trace := [] |}.

Definition alice_row : user_row :=
  {| u_email := Some "alice@example.org"; u_display_name := Some "alice";
     u_photo_url := Some "/uploads/profile-photos/a.png";
     u_custom_user_id := Some "alice_1" |}.

Definition bob_row : user_row :=
  {| u_email := Some "bob@example.org"; u_display_name := Some "bob";
     u_photo_url := None; u_custom_user_id := Some "bob" |}.

Definition alice_profile : profile_row :=
  {| p_major := None; p_interests := JArr [];
     p_completed_assessments := 3;
     p_assessment_results :=
       Some (JArr [result_of "2024-01-01"; result_of "2024-01-02";
                   result_of "2024-01-03"]) |}.

(** The sample world with alice's photo on disk. *)
Definition sample_world_with_photo : world :=
  {| committed := sample_tables; txn := None; db_faults := [];
     files := {[ "/srv/app/uploads/profile-photos/a.png" ]};
     fs_faults := []; trace := [] |}.

(** The sample world with the database out of reach. *)
Definition sample_world_down : world :=
  {| committed := sample_tables; txn := None;
     db_faults := [Some (Error "connection refused")];
     files := ∅; fs_faults := []; trace := [] |}.

(** ** The upload filter *)

Definition allowedTypes : list string := ["image/jpeg"; "image/png"; "image/gif"].

(** [fileFilter(req, file, cb)], on [file.mimetype]: what it passes to
    [cb], the error or the acceptance. *)
Definition fileFilter (mimetype : string) : js_error + bool :=
  if existsb (String.eqb mimetype) allowedTypes
  then inr true
  else inl (Error "Invalid file type. Only JPEG, PNG and GIF are allowed.").

(** ** Bookkeeping of a run *)

(** The world after the events [evs] have been logged. *)
Definition logged (evs : list event) (w : world) : world :=
  {| committed := committed w; txn := txn w; db_faults := db_faults w;
     files := files w; fs_faults := fs_faults w; trace := trace w ++ evs |}.

(** No two users hold the same custom id. *)
Definition unique_custom_ids (t : tables) : Prop :=
  forall a b ua ub c,
    users t !! a = Some ua -> users t !! b = Some ub ->
    u_custom_user_id ua = Some c -> u_custom_user_id ub = Some c ->
    a = b.

Definition is_Connect (ev : event) : bool :=
  match ev with
  | Connect => true
  | _ => false
  end.

Definition is_Release (ev : event) : bool :=
  match ev with
  | Release => true
  | _ => false
  end.

(** The calls to [pool.connect()] and to [client.release()] among events. *)
Definition connects (evs : list event) : nat := length (List.filter is_Connect evs).

Definition releases (evs : list event) : nat := length (List.filter is_Release evs).

(** The next call to the database is not scheduled to fail. *)
Definition next_call_ok (w : world) : bool :=
  match mjoin (head (db_faults w)) with
  | None => true
  | Some _ => false
  end.

(** The statements sent through [pool.query] and [client.query] among
    events. *)
Definition is_statement (ev : event) : bool :=
  match ev with
  | ClientQuery _ | PoolQuery _ => true
  | _ => false
  end.

(** An operation of the monad that removes no file. *)
Definition keeps_files {A : Type} (c : M A) : Prop :=
  forall w, files w ⊆ files (snd (c w)).

(** The first and the last character of a string, if any. *)
Definition first_char (s : string) : option ascii :=
  match s with
  | EmptyString => None
  | String c _ => Some c
  end.

Fixpoint last_char (s : string) : option ascii :=
  match s with
  | EmptyString => None
  | String c EmptyString => Some c
  | String _ rest => last_char rest
  end.

(** * Properties *)

(** Unfolds the handlers and the operations of the monad, and nothing of
    the maps, so that a run can be followed statement by statement. *)
Ltac run_step :=
  cbv beta iota zeta delta
    [getProfile updateProfile updateAssessment deleteAssessmentResults updateCustomId
     checkCustomId updateProfilePhoto deleteUser checkUsername authenticated
     try_catch try_finally mbind mret M_bind M_ret throw js_trim join_cwd upload
     pool_connect client_release client_query pool_query console_error console_log
     fs_existsSync fs_mkdirSync fs_unlink
     pop_db_fault pop_fs_fault log set_committed set_txn set_files session set_session
     exec row_of set_users set_profiles foreign_key_ok jsonb_param
     committed txn db_faults files fs_faults trace users user_profiles uid email
     fst snd mjoin option_join head hd_error tail tl
     res_json res_status_json negb];
  cbn [length List.map Nat.eqb Nat.ltb Nat.leb].

Ltac run := repeat progress run_step.

Ltac open_world w :=
  let us := fresh "us" in
  let ps := fresh "ps" in
  destruct w as [[us ps] ? ? ? ? ?]; simpl in *; subst.

(** ** Strings *)

Lemma trim_end_empty_iff (s : string) :
  trim_end s = "" <-> all_chars is_white_space s = true.
Proof.
  induction s as [|c rest IH]; simpl.
  - tauto.
  - destruct (trim_end rest) eqn:Hrest.
    + destruct (is_white_space c); simpl; [tauto|].
      split; discriminate.
    + split; [discriminate|].
      intros H. apply andb_true_iff in H as [_ H].
      apply IH in H. discriminate.
Qed.

Lemma append_cons (c : ascii) (a b : string) :
  String c a ++ b = String c (a ++ b).
Proof. reflexivity. Qed.

Lemma trim_start_suffix (s : string) :
  exists blanks, s = blanks ++ trim_start s /\ all_chars is_white_space blanks = true.
Proof.
  induction s as [|c rest IH]; simpl.
  - exists "". auto.
  - destruct (is_white_space c) eqn:Hc.
    + destruct IH as (blanks & Heq & Hall).
      exists (String c blanks). rewrite append_cons, <- Heq. simpl.
      rewrite Hc. auto.
    + exists "". auto.
Qed.

Lemma all_chars_app (p : ascii -> bool) (a b : string) :
  all_chars p (a ++ b) = all_chars p a && all_chars p b.
Proof.
  induction a as [|c a IH]; [reflexivity|].
  rewrite append_cons. simpl. rewrite IH. apply andb_assoc.
Qed.

(** A string trims to nothing exactly when it is made of white space. *)
Lemma trim_empty_iff (s : string) :
  trim s = "" <-> all_chars is_white_space s = true.
Proof.
  unfold trim. rewrite trim_end_empty_iff.
  destruct (trim_start_suffix s) as (blanks & Heq & Hall).
  rewrite Heq at 2. rewrite all_chars_app, Hall. reflexivity.
Qed.

Lemma length_zero_empty (s : string) :
  (String.length s =? 0)%nat = true <-> s = "".
Proof.
  destruct s; simpl; split; auto; discriminate.
Qed.

(** [split_at_first] cuts at the first ['@']: what it returns has none, and
    what it leaves is empty or begins with one. *)
Lemma split_at_first_spec (s : string) :
  exists rest,
    s = split_at_first s ++ rest
    /\ all_chars (fun c => negb (Ascii.eqb c "@"%char)) (split_at_first s) = true
    /\ (rest = "" \/ exists r, rest = String "@"%char r).
Proof.
  induction s as [|c s IH]; simpl.
  - exists "". auto.
  - destruct (Ascii.eqb c "@"%char) eqn:Hc.
    + apply Ascii.eqb_eq in Hc. subst c.
      exists (String "@"%char s). eauto.
    + destruct IH as (rest & Heq & Hno & Hrest).
      exists rest. rewrite append_cons, <- Heq. simpl. rewrite Hc. auto.
Qed.

(** ** updateProfile: validation of the display name *)

(** C3.  When [display_name] is absent, or is a string that trims to
    nothing, [updateProfile] answers 400 with the validation error and the
    world is left as it was: no call is made, no row of [users] or
    [user_profiles] changes. *)
Theorem updateProfile_blank_display_name
    (E : env) (user : auth_user) (major interests custom_user_id display_name : option json)
    (w : world) :
  (display_name = None \/ exists s, display_name = Some (JStr s) /\ trim s = "") ->
  updateProfile E user major interests custom_user_id display_name w
  = (Returned (res_status_json 400 (Some (JObj [("error", JStr "Display name is required")]))),
     w).
Proof.
  intros [-> | (s & -> & Hs)].
  - reflexivity.
  - run. simpl.
    destruct (String.eqb s "") eqn:Hempty; run; [reflexivity|].
    rewrite Hs. reflexivity.
Qed.

(** ** getProfile: the first call of a new user *)

(** C2.  For a user with no row in [users] and none in [user_profiles],
    [getProfile] adds exactly one row to each table, between BEGIN and
    COMMIT on one client, and answers with the joined record, in which
    [completed_assessments] is 0, [interests] is the empty list and
    [assessment_results] is null. *)
Theorem getProfile_fresh_user (E : env) (id : string) (em : option string) (w : world) :
  healthy w ->
  users (committed w) !! id = None ->
  user_profiles (committed w) !! id = None ->
  exists record w',
    getProfile E (authenticated id em) w = (Returned (res_json (Some record)), w')
    /\ jget "id" record = Some (JStr id)
    /\ jget "completed_assessments" record = Some (JNum 0)
    /\ jget "interests" record = Some (JArr [])
    /\ jget "assessment_results" record = Some JNull
    /\ users (committed w')
       = <[id := new_user em (split_at_first <$> em)]> (users (committed w))
    /\ user_profiles (committed w') = <[id := default_profile]> (user_profiles (committed w))
    /\ size (users (committed w')) = S (size (users (committed w)))
    /\ size (user_profiles (committed w')) = S (size (user_profiles (committed w)))
    /\ txn w' = None
    /\ trace w'
       = (trace w ++ [Connect;
                      ClientQuery (SELECT_profile true (Some id));
                      ClientQuery BEGIN;
                      ClientQuery (INSERT_user (Some id) em (split_at_first <$> em));
                      ClientQuery (INSERT_profile (Some id));
                      ClientQuery (SELECT_profile true (Some id));
                      ClientQuery COMMIT;
                      Release])%list.
Proof.
  intros [Htxn Hfaults] Hu Hp. open_world w.
  run. rewrite Hu. run. rewrite Hu. run. rewrite Hp. run.
  rewrite !lookup_insert_eq. run.
  eexists _, _. split; [reflexivity|].
  simpl. rewrite <- !app_assoc. simpl.
  rewrite !map_size_insert_None by assumption. tauto.
Qed.

(** C10.  On the lazy-create path (no row in [users] for the caller) the
    inserted row's [display_name] is the part of the authenticated e-mail
    address before its first ['@']: it has no ['@'], and what follows it in
    the address is nothing or begins with ['@'].  Without an address the
    column is null. *)
Theorem getProfile_display_name_is_local_part
    (E : env) (id : string) (em : option string) (w : world) :
  healthy w ->
  users (committed w) !! id = None ->
  exists r w' u,
    getProfile E (authenticated id em) w = (Returned r, w')
    /\ users (committed w') !! id = Some u
    /\ u_display_name u = split_at_first <$> em
    /\ forall address, em = Some address ->
         exists local rest,
           u_display_name u = Some local
           /\ address = local ++ rest
           /\ all_chars (fun c => negb (Ascii.eqb c "@"%char)) local = true
           /\ (rest = "" \/ exists r', rest = String "@"%char r').
Proof.
  intros [Htxn Hfaults] Hu. open_world w.
  assert (Hlocal : forall address, em = Some address ->
            exists local rest,
              split_at_first <$> em = Some local
              /\ address = local ++ rest
              /\ all_chars (fun c => negb (Ascii.eqb c "@"%char)) local = true
              /\ (rest = "" \/ exists r', rest = String "@"%char r')).
  { intros address ->. destruct (split_at_first_spec address) as (rest & H1 & H2 & H3).
    exists (split_at_first address), rest. auto. }
  run. rewrite Hu. run. rewrite Hu. run.
  destruct (ps !! id) eqn:Hp; run; rewrite !lookup_insert_eq; run; try rewrite Hp;
    eexists _, _, _; (split; [reflexivity|]); simpl;
    rewrite lookup_insert_eq; (split; [reflexivity|]); simpl; auto.
Qed.

(** ** updateAssessment *)

(** C4, as stated, at a caller without a row in [users] nor in
    [user_profiles]: the insert is refused by the foreign key, the answer is
    500 and no profile row is created. *)
Lemma updateAssessment_without_user_row_creates_nothing :
  user_profiles (committed sample_world) !! "u9" = None
  /\ exists w',
       updateAssessment sample_env (authenticated "u9" None) (Some (JArr [])) sample_world
       = (Returned (res_status_json 500
                      (Some (JObj [("error", JStr "Failed to update assessment")]))), w')
       /\ user_profiles (committed w') !! "u9" = None.
Proof.
  split; [vm_compute; reflexivity|].
  eexists. split; vm_compute; reflexivity.
Qed.

(** C4, amended.  [updateAssessment] stores the payload as the whole of
    [assessment_results], whatever it holds: on an existing row the counter
    goes from N to N+1 and the other columns stay; without a profile row,
    for a caller that has a row in [users], one is created with the payload
    and a counter of 1.  For a caller with neither row the insert is
    refused: the answer is 500 and the tables stay as they are. *)
Theorem updateAssessment_replaces_and_counts
    (E : env) (id : string) (em : option string) (results : option json) (w : world) :
  healthy w ->
  (forall p, user_profiles (committed w) !! id = Some p ->
     let p' := {| p_major := p_major p; p_interests := p_interests p;
                  p_completed_assessments := p_completed_assessments p + 1;
                  p_assessment_results := results |} in
     exists w',
       updateAssessment E (authenticated id em) results w
       = (Returned (res_json (Some (profile_json id p'))), w')
       /\ user_profiles (committed w') = <[id := p']> (user_profiles (committed w))
       /\ users (committed w') = users (committed w))
  /\ (forall u, user_profiles (committed w) !! id = None ->
      users (committed w) !! id = Some u ->
      let p' := {| p_major := None; p_interests := JArr [];
                   p_completed_assessments := 1;
                   p_assessment_results := results |} in
      exists w',
        updateAssessment E (authenticated id em) results w
        = (Returned (res_json (Some (profile_json id p'))), w')
        /\ user_profiles (committed w') = <[id := p']> (user_profiles (committed w))
        /\ users (committed w') = users (committed w))
  /\ (user_profiles (committed w) !! id = None ->
      users (committed w) !! id = None ->
      exists w',
        updateAssessment E (authenticated id em) results w
        = (Returned (res_status_json 500
                       (Some (JObj [("error", JStr "Failed to update assessment")]))), w')
        /\ committed w' = committed w).
Proof.
  intros [Htxn Hfaults]. open_world w. split; [|split].
  - intros p Hp. run. rewrite Hp. run. rewrite Hp. run.
    eexists. split; [reflexivity|]. auto.
  - intros u Hp Hu. run. rewrite Hp. run. rewrite Hp. run. rewrite Hu. run.
    eexists. split; [reflexivity|]. auto.
  - intros Hp Hu. run. rewrite Hp. run. rewrite Hp. run. rewrite Hu. run.
    eexists. split; reflexivity.
Qed.

(** ** updateProfile: the custom id *)

Lemma falsy_param_null (E : env) (v : option json) :
  js_truthy v = false -> param_text E (or_null v) = None.
Proof.
  intros H. unfold or_null. rewrite H. reflexivity.
Qed.

(** C9.  When the body has no [custom_user_id], or a falsy one, and the
    display name is valid, [updateProfile] writes null into the caller's
    [custom_user_id]: a handle set before is cleared. *)
Theorem updateProfile_clears_custom_user_id
    (E : env) (id : string) (em : option string)
    (major interests custom_user_id : option json) (s : string) (w : world) (u : user_row) :
  healthy w ->
  js_truthy custom_user_id = false ->
  trim s <> "" ->
  users (committed w) !! id = Some u ->
  exists r w',
    updateProfile E (authenticated id em) major interests custom_user_id (Some (JStr s)) w
    = (Returned r, w')
    /\ status r = 200
    /\ users (committed w') !! id
       = Some {| u_email := u_email u; u_display_name := Some (trim s);
                 u_photo_url := u_photo_url u; u_custom_user_id := None |}.
Proof.
  intros [Htxn Hfaults] Hfalsy Hs Hu. open_world w.
  assert (Hlen : (String.length (trim s) =? 0)%nat = false).
  { destruct (String.length (trim s) =? 0)%nat eqn:H; [|reflexivity].
    apply length_zero_empty in H. contradiction. }
  assert (Hne : String.eqb s "" = false).
  { destruct s; [|reflexivity]. exfalso. apply Hs. reflexivity. }
  run. cbn [js_truthy truthy]. rewrite Hne. run. rewrite Hlen. run.
  rewrite (falsy_param_null E _ Hfalsy). rewrite Hu. run.
  destruct (ps !! id) eqn:Hp; run; rewrite lookup_insert_eq; run;
    try rewrite lookup_insert_eq; try rewrite Hp; run;
    eexists _, _; (split; [reflexivity|]); simpl;
    rewrite lookup_insert_eq; auto.
Qed.

(** ** The uniqueness pre-check *)

Lemma holds_custom_id_spec (custom_user_id : option string) (id other : string) (u : user_row) :
  holds_custom_id custom_user_id (Some id) (other, u) = true
  <-> exists c, custom_user_id = Some c /\ other <> id /\ u_custom_user_id u = Some c.
Proof.
  unfold holds_custom_id. simpl. split.
  - destruct custom_user_id as [c|]; [|discriminate].
    destruct (u_custom_user_id u) as [c'|]; [|discriminate].
    intros H. apply andb_true_iff in H as [Hc Hid].
    apply String.eqb_eq in Hc. apply negb_true_iff, String.eqb_neq in Hid.
    exists c. subst. auto.
  - intros (c & -> & Hid & ->).
    apply andb_true_iff. split.
    + apply String.eqb_refl.
    + apply negb_true_iff, String.eqb_neq, Hid.
Qed.

(** The rows of the pre-check are those of the users that hold the id. *)
Lemma no_holder_iff (t : tables) (custom_user_id : option string) (id : string) :
  List.filter (holds_custom_id custom_user_id (Some id)) (map_to_list (users t)) = []
  <-> ~ taken_by_other t custom_user_id id.
Proof.
  split.
  - intros Hnil (c & other & u & Hc & Hid & Hu & Hcu).
    assert (Hin : In (other, u)
                    (List.filter (holds_custom_id custom_user_id (Some id))
                       (map_to_list (users t)))).
    { apply filter_In. split.
      - apply list_elem_of_In, elem_of_map_to_list, Hu.
      - apply holds_custom_id_spec. eauto. }
    rewrite Hnil in Hin. destruct Hin.
  - intros Hfree.
    destruct (List.filter _ _) as [|[other u] rows] eqn:Hrows; [reflexivity|].
    exfalso. apply Hfree.
    assert (Hin : In (other, u)
                    (List.filter (holds_custom_id custom_user_id (Some id))
                       (map_to_list (users t)))).
    { rewrite Hrows. left. reflexivity. }
    apply filter_In in Hin as [Hin Hholds].
    apply list_elem_of_In, elem_of_map_to_list in Hin.
    apply holds_custom_id_spec in Hholds as (c & Hc & Hid & Hcu).
    exists c, other, u. auto.
Qed.

(** ** updateCustomId *)

(** C6.  [updateCustomId] answers 400 and leaves the tables alone when a
    user other than the caller holds the requested custom id; otherwise it
    sets the caller's [custom_user_id] and answers with the updated user
    row. *)
Theorem updateCustomId_conflict_or_update
    (E : env) (id : string) (em : option string) (custom_user_id : option json) (w : world) :
  healthy w ->
  (taken_by_other (committed w) (param_text E custom_user_id) id ->
     exists w',
       updateCustomId E (authenticated id em) custom_user_id w
       = (Returned (res_status_json 400
                      (Some (JObj [("error", JStr "This user ID is already taken")]))), w')
       /\ committed w' = committed w)
  /\ (~ taken_by_other (committed w) (param_text E custom_user_id) id ->
      forall u, users (committed w) !! id = Some u ->
        let u' := {| u_email := u_email u; u_display_name := u_display_name u;
                     u_photo_url := u_photo_url u;
                     u_custom_user_id := param_text E custom_user_id |} in
        exists w',
          updateCustomId E (authenticated id em) custom_user_id w
          = (Returned (res_json (Some (user_json id u'))), w')
          /\ users (committed w') = <[id := u']> (users (committed w))
          /\ user_profiles (committed w') = user_profiles (committed w)).
Proof.
  intros [Htxn Hfaults].
  pose proof (no_holder_iff (committed w) (param_text E custom_user_id) id) as Hrows.
  open_world w. split.
  - intros Htaken. run.
    destruct (List.filter _ _) as [|row rows] eqn:Hfilter.
    { exfalso. apply Hrows; auto. }
    run. eexists. split; reflexivity.
  - intros Hfree u Hu. apply Hrows in Hfree. run.
    rewrite Hfree. run. rewrite Hu. run.
    eexists. split; [reflexivity|]. auto.
Qed.

(** ** checkUsername *)

(** C7.  A username that is not 1 to 30 characters of [[a-zA-Z0-9_]] gets
    the 400 answer and the world is untouched: no connection is taken and
    no statement is sent.  A username of that form is looked up, and the
    answer is [{available: b}] with [b] true exactly when no user other than
    the caller holds it as custom id. *)
Theorem checkUsername_format_then_lookup
    (E : env) (user : auth_user) (id : string) (em : option string) (username : string)
    (w : world) :
  (username_format_ok username = false ->
     checkUsername E user username w
     = (Returned (res_status_json 400
                    (Some (JObj [("available", JBool false);
                                 ("error", JStr "Invalid username format")]))), w))
  /\ (username_format_ok username = true -> healthy w ->
      exists b w',
        checkUsername E (authenticated id em) username w
        = (Returned (res_json (Some (JObj [("available", JBool b)]))), w')
        /\ (b = true <-> ~ taken_by_other (committed w) (Some username) id)
        /\ committed w' = committed w
        /\ trace w' = (trace w ++ [Connect;
                                   ClientQuery (SELECT_custom_id_holder (Some username) (Some id));
                                   Release])%list).
Proof.
  split.
  - intros Hbad. run. rewrite Hbad. reflexivity.
  - intros Hok [Htxn Hfaults].
    pose proof (no_holder_iff (committed w) (Some username) id) as Hrows.
    open_world w. run. rewrite Hok. run.
    destruct (List.filter _ _) as [|row rows] eqn:Hfilter; run;
      eexists _, _; (split; [reflexivity|]); simpl;
      rewrite <- !app_assoc; simpl; (split; [|auto]).
    + split; [intros _; apply Hrows; reflexivity | reflexivity].
    + split; [discriminate|]. intros Hfree. apply Hrows in Hfree. discriminate.
Qed.

(** ** deleteUser *)

Lemma photo_url_of_row (x : json) :
  Some (JObj [("photo_url", x)]) ≫= jget "photo_url" = Some x.
Proof. reflexivity. Qed.

Ltac exists_cleanup evs :=
  eexists _, evs; (split; [reflexivity|]);
  cbn [committed users user_profiles txn trace files];
  (split; [reflexivity|]); (split; [reflexivity|]); (split; [reflexivity|]);
  (split; [rewrite <- !app_assoc; reflexivity|]); (split; [reflexivity|]).

(** C8.  For a user with a row in each table, [deleteUser] deletes the
    profile row, then the user row, and commits, all before the photo file
    is touched; whatever then happens to the file, both rows are gone and
    the answer is the 200 success message.  When the deletion of the file
    fails, the failure is logged and the file stays. *)
Theorem deleteUser_survives_photo_failure
    (E : env) (id : string) (em : option string) (w : world) (u : user_row) (p : profile_row) :
  id <> "" ->
  healthy w ->
  users (committed w) !! id = Some u ->
  user_profiles (committed w) !! id = Some p ->
  exists w' cleanup,
    deleteUser E (authenticated id em) w
    = (Returned (res_status_json 200
                   (Some (JObj [("message", JStr "User deleted successfully")]))), w')
    /\ users (committed w') = delete id (users (committed w))
    /\ user_profiles (committed w') = delete id (user_profiles (committed w))
    /\ txn w' = None
    /\ trace w'
       = (trace w ++ [Connect;
                      ClientQuery BEGIN;
                      ClientQuery (SELECT_photo (Some id));
                      ClientQuery (DELETE_profile (Some id));
                      ClientQuery (DELETE_user (Some id));
                      ClientQuery COMMIT] ++ cleanup ++ [Release])%list
    /\ forallb is_cleanup cleanup = true
    /\ forall url, u_photo_url u = Some url -> url <> "" ->
         let photoPath := path_join E (cwd E) url in
         mjoin (head (fs_faults w)) <> None \/ photoPath ∉ files w ->
         exists photoErr,
           cleanup = [Unlink photoPath; ConsoleError "Failed to delete profile photo:" photoErr]
           /\ files w' = files w.
Proof.
  intros Hid [Htxn Hfaults] Hu Hp. open_world w.
  assert (Hne : String.eqb id "" = false) by (apply String.eqb_neq, Hid).
  run. cbn [fmap option_fmap option_map js_truthy truthy]. rewrite Hne. run.
  rewrite Hu. run.
  change (option_bind json json (jget "photo_url")) with (mbind (jget "photo_url")).
  rewrite photo_url_of_row.
  destruct (u_photo_url u) as [url|] eqn:Hphoto; cbn [of_text js_truthy truthy].
  2: { run. eexists _, []. split; [reflexivity|]. simpl.
       rewrite <- !app_assoc. simpl. repeat split; auto. discriminate. }
  destruct (String.eqb url "") eqn:Hurl; run.
  { apply String.eqb_eq in Hurl. subst url.
    eexists _, []. split; [reflexivity|]. simpl.
    rewrite <- !app_assoc. simpl. repeat split; auto.
    intros url [= <-] Hno. contradiction. }
  set (photoPath := path_join E (cwd E) url).
  destruct fs_faults0 as [|[e|] rest]; run;
    try (destruct (bool_decide (photoPath ∈ files0)) eqn:Hfile; run);
    first
      [ exists_cleanup [Unlink photoPath]
      | exists_cleanup [Unlink photoPath;
                        ConsoleError "Failed to delete profile photo:"
                          (Error "ENOENT: no such file or directory")]
      | match goal with
        | err : js_error |- _ =>
            exists_cleanup [Unlink photoPath;
                            ConsoleError "Failed to delete profile photo:" err]
        end ];
    intros url' [= <-] _ Hfail; eauto;
    apply bool_decide_eq_true in Hfile; destruct Hfail as [Hfail | Hfail];
    (contradiction || (exfalso; apply Hfail; reflexivity)).
Qed.

(** ** deleteAssessmentResults *)

Lemma ne_any_one (x d : string) :
  ne_any (Some x) [Some d] = negb (String.eqb x d).
Proof. simpl. apply orb_false_r. Qed.

(** Against two different dates every dated entry passes [!= ANY]: it
    differs from at least one of them. *)
Lemma ne_any_two (x d1 d2 : string) :
  d1 <> d2 -> ne_any (Some x) [Some d1; Some d2] = true.
Proof.
  intros Hd. simpl.
  destruct (String.eqb x d1) eqn:H1; simpl; [|reflexivity].
  apply String.eqb_eq in H1. subst x.
  destruct (String.eqb d1 d2) eqn:H2; [|reflexivity].
  apply String.eqb_eq in H2. contradiction.
Qed.

Lemma filter_all {A : Type} (f : A -> bool) (l : list A) :
  (forall x, In x l -> f x = true) -> List.filter f l = l.
Proof.
  induction l as [|a l IH]; intros H; simpl; [reflexivity|].
  rewrite (H a) by (left; reflexivity).
  rewrite IH; [reflexivity|]. intros x Hx. apply H. right. exact Hx.
Qed.

(** With one date the statement keeps the entries dated otherwise. *)
Lemma remaining_results_one_date (E : env) (d : string) (items : list json) :
  remaining_results E [Some d] (Some (JArr items))
  = inr (jsonb_agg
           (List.filter (fun result => match field_text E "date" result with
                                       | Some x => negb (String.eqb x d)
                                       | None => false
                                       end) items)).
Proof.
  unfold remaining_results. do 2 f_equal.
  induction items as [|r items IH]; [reflexivity|].
  simpl. rewrite IH.
  destruct (field_text E "date" r); simpl; [rewrite orb_false_r|]; reflexivity.
Qed.

(** With two different dates it keeps every dated entry, also those dated
    one of the two. *)
Lemma remaining_results_two_dates (E : env) (d1 d2 : string) (items : list json) :
  d1 <> d2 ->
  (forall r, In r items -> exists x, field_text E "date" r = Some x) ->
  remaining_results E [Some d1; Some d2] (Some (JArr items)) = inr (jsonb_agg items).
Proof.
  intros Hd Hdated. unfold remaining_results. do 2 f_equal.
  apply filter_all. intros r Hr.
  destruct (Hdated r Hr) as [x ->]. apply ne_any_two, Hd.
Qed.

(** C1.  The code at dates ["2024-01-01", "2024-01-02"], on a profile with
    three results dated 2024-01-01, 2024-01-02 and 2024-01-03 and a counter
    of 3: the counter goes down by 2 and all three results stay, the two
    whose dates were given included. *)
Theorem deleteAssessmentResults_two_dates_remove_nothing :
  exists w',
    deleteAssessmentResults sample_env (authenticated "u1" (Some "alice@example.org"))
      (Some [JStr "2024-01-01"; JStr "2024-01-02"]) sample_world
    = (Returned
         (res_json
            (Some (profile_json "u1"
                     {| p_major := None; p_interests := JArr [];
                        p_completed_assessments := 1;
                        p_assessment_results :=
                          Some (JArr [result_of "2024-01-01"; result_of "2024-01-02";
                                      result_of "2024-01-03"]) |}))), w')
    /\ (p_assessment_results <$> user_profiles (committed w') !! "u1")
       = (p_assessment_results <$> user_profiles (committed sample_world) !! "u1").
Proof.
  eexists. split.
  - vm_compute. reflexivity.
  - vm_compute. reflexivity.
Qed.

(** ** Failure paths *)

Section Rules.

Context {A B : Type}.

Lemma wp_bind (c : M A) (k : A -> M B) (Q : outcome B -> world -> Prop) (w : world) :
  wp c (fun o w' => match o with
                    | Returned a => wp (k a) Q w'
                    | Thrown e => Q (Thrown e) w'
                    end) w ->
  wp (c ≫= k) Q w.
Proof.
  unfold wp, mbind, M_bind. destruct (c w) as [[a|e] w']; auto.
Qed.

Lemma wp_try_catch (block : M A) (handler : js_error -> M A)
    (Q : outcome A -> world -> Prop) (w : world) :
  wp block (fun o w' => match o with
                        | Returned a => Q (Returned a) w'
                        | Thrown e => wp (handler e) Q w'
                        end) w ->
  wp (try_catch block handler) Q w.
Proof.
  unfold wp, try_catch. destruct (block w) as [[a|e] w']; auto.
Qed.

Lemma wp_try_finally (block : M A) (finalizer : M unit)
    (Q : outcome A -> world -> Prop) (w : world) :
  wp block (fun o w1 =>
              wp finalizer (fun o' w2 => match o' with
                                         | Returned _ => Q o w2
                                         | Thrown e => Q (Thrown e) w2
                                         end) w1) w ->
  wp (try_finally block finalizer) Q w.
Proof.
  unfold wp, try_finally. destruct (block w) as [o w1]. simpl.
  destruct (finalizer w1) as [[[]|e] w2]; auto.
Qed.

Lemma wp_ret (a : A) (Q : outcome A -> world -> Prop) (w : world) :
  Q (Returned a) w -> wp (mret a) Q w.
Proof. auto. Qed.

Lemma wp_throw (e : js_error) (Q : outcome A -> world -> Prop) (w : world) :
  Q (Thrown e) w -> wp (throw e) Q w.
Proof. auto. Qed.

Lemma wp_any (c : M A) (Q : outcome A -> world -> Prop) (w : world) :
  (forall o w', Q o w') -> wp c Q w.
Proof. intros HQ. apply HQ. Qed.

Lemma wp_silent (c : M A) (t0 : tables) (Q : outcome A -> world -> Prop) (w : world) :
  silent c ->
  committed w = t0 ->
  (forall o w', committed w' = t0 -> txn w' = txn w -> Q o w') ->
  wp c Q w.
Proof.
  intros Hc H0 HQ. destruct (Hc w) as [H1 H2].
  apply HQ; congruence.
Qed.

Lemma wp_quiet (c : M A) (t0 : tables) (Q : outcome A -> world -> Prop) (w : world) :
  silent c -> returns c ->
  committed w = t0 ->
  (forall a w', committed w' = t0 -> txn w' = txn w -> Q (Returned a) w') ->
  wp c Q w.
Proof.
  intros Hc Hr H0 HQ. destruct (Hc w) as [H1 H2]. destruct (Hr w) as [a Ha].
  unfold wp. rewrite Ha. apply HQ; congruence.
Qed.

Lemma wp_returns (c : M A) (Q : outcome A -> world -> Prop) (w : world) :
  returns c ->
  (forall a w', Q (Returned a) w') ->
  wp c Q w.
Proof.
  intros Hr HQ. destruct (Hr w) as [a Ha].
  unfold wp. rewrite Ha. apply HQ.
Qed.

End Rules.

Lemma silent_pool_connect : silent pool_connect.
Proof.
  intros w. unfold pool_connect, pop_db_fault.
  destruct (mjoin _); auto.
Qed.

Lemma silent_client_release : silent client_release.
Proof. intros w. auto. Qed.

Lemma silent_console_error (label : string) (e : js_error) : silent (console_error label e).
Proof. intros w. auto. Qed.

Lemma silent_console_log (label : string) : silent (console_log label).
Proof. intros w. auto. Qed.

Lemma silent_fs_existsSync (path : string) : silent (fs_existsSync path).
Proof. intros w. auto. Qed.

Lemma silent_fs_mkdirSync (path : string) : silent (fs_mkdirSync path).
Proof.
  intros w. unfold fs_mkdirSync, pop_fs_fault.
  destruct (mjoin _); auto.
Qed.

Lemma silent_fs_unlink (path : string) : silent (fs_unlink path).
Proof.
  intros w. unfold fs_unlink, pop_fs_fault.
  destruct (mjoin _); [auto|]. destruct (bool_decide _); auto.
Qed.

Lemma silent_upload (E : env) (u : upload_result) : silent (upload E u).
Proof. intros w. destruct u; auto. Qed.

Lemma returns_client_release : returns client_release.
Proof. intros w. exists tt. reflexivity. Qed.

Lemma returns_console_error (label : string) (e : js_error) : returns (console_error label e).
Proof. intros w. exists tt. reflexivity. Qed.

Lemma returns_console_log (label : string) : returns (console_log label).
Proof. intros w. exists tt. reflexivity. Qed.

Lemma returns_fs_existsSync (path : string) : returns (fs_existsSync path).
Proof. intros w. eexists. reflexivity. Qed.

Lemma returns_upload (E : env) (u : upload_result) : returns (upload E u).
Proof. intros w. exists u. destruct u; reflexivity. Qed.

Lemma silent_js_trim (v : option json) : silent (js_trim v).
Proof. intros w. destruct v as [[]|]; auto. Qed.

Lemma silent_join_cwd (E : env) (v : option json) : silent (join_cwd E v).
Proof. intros w. destruct v as [[]|]; auto. Qed.

(** A statement that only reads returns the tables it was given. *)
Lemma exec_read_only (E : env) (s : stmt) (t t' : tables) (rows : list json) :
  read_only s = true -> exec E s t = inr (rows, t') -> t' = t.
Proof.
  destruct s; try discriminate; intros _; simpl.
  - destruct (row_of id (users t)) as [[k u]|]; [destruct (user_profiles t !! k)|];
      intros [= _ <-]; reflexivity.
  - destruct (row_of id (user_profiles t)); intros [= _ <-]; reflexivity.
  - intros [= _ <-]; reflexivity.
  - destruct (row_of id (users t)) as [[k u]|]; intros [= _ <-]; reflexivity.
Qed.

(** An UPDATE ... RETURNING that returns no row has changed none. *)
Lemma exec_delete_results_no_row (E : env) dates n id (t t' : tables) :
  exec E (UPDATE_delete_results dates n id) t = inr ([], t') -> t' = t.
Proof.
  simpl. destruct (row_of id (user_profiles t)) as [[k p]|].
  - destruct (remaining_results E dates (p_assessment_results p)); discriminate.
  - intros [= <-]; reflexivity.
Qed.

Section Statements.

Variable E : env.

Lemma wp_begin (t0 : tables) (Q : outcome (list json) -> world -> Prop) (w : world) :
  committed w = t0 ->
  (forall o w', committed w' = t0 ->
                match o with Returned _ => is_Some (txn w') | Thrown _ => True end ->
                Q o w') ->
  wp (client_query E BEGIN) Q w.
Proof.
  intros H0 HQ. unfold wp, client_query, pop_db_fault.
  destruct (mjoin _); apply HQ; simpl; eauto.
Qed.

Lemma wp_commit (t0 : tables) (Q : outcome (list json) -> world -> Prop) (w : world) :
  committed w = t0 ->
  (forall o w', match o with Returned _ => True | Thrown _ => committed w' = t0 end ->
                Q o w') ->
  wp (client_query E COMMIT) Q w.
Proof.
  intros H0 HQ. unfold wp, client_query, pop_db_fault.
  destruct (mjoin _); apply HQ; simpl; eauto.
Qed.

Lemma wp_rollback (t0 : tables) (Q : outcome (list json) -> world -> Prop) (w : world) :
  committed w = t0 ->
  (forall o w', committed w' = t0 -> Q o w') ->
  wp (client_query E ROLLBACK) Q w.
Proof.
  intros H0 HQ. unfold wp, client_query, pop_db_fault.
  destruct (mjoin _); apply HQ; simpl; eauto.
Qed.

Lemma wp_query_in_txn (s : stmt) (t0 : tables)
    (Q : outcome (list json) -> world -> Prop) (w : world) :
  transaction_control s = false ->
  committed w = t0 ->
  is_Some (txn w) ->
  (forall o w', committed w' = t0 -> is_Some (txn w') -> Q o w') ->
  wp (client_query E s) Q w.
Proof.
  intros Hs H0 [t Ht] HQ. unfold wp, client_query, pop_db_fault.
  destruct (mjoin _); [apply HQ; simpl; eauto|].
  destruct s; try discriminate;
    (destruct (exec E _ _) as [e|[rows t']]; apply HQ;
     unfold set_session; simpl; rewrite ?Ht; simpl; eauto).
Qed.

Lemma wp_query_read (s : stmt) (t0 : tables)
    (Q : outcome (list json) -> world -> Prop) (w : world) :
  read_only s = true ->
  committed w = t0 ->
  (forall o w', committed w' = t0 -> txn w' = txn w -> Q o w') ->
  wp (client_query E s) Q w.
Proof.
  intros Hs H0 HQ. unfold wp, client_query, pop_db_fault.
  destruct (mjoin _); [apply HQ; simpl; eauto|].
  destruct s; try discriminate;
    (destruct (exec E _ _) as [e|[rows t']] eqn:Hexec; [apply HQ; simpl; eauto|];
     apply exec_read_only in Hexec; [|reflexivity]; subst t';
     apply HQ; unfold set_session, session; simpl;
     destruct (txn w); simpl; eauto).
Qed.

Lemma wp_pool_query (s : stmt) (t0 : tables)
    (Q : outcome (list json) -> world -> Prop) (w : world) :
  committed w = t0 ->
  (forall o w', match o with
                | Returned rows => exec E s t0 = inr (rows, committed w')
                | Thrown _ => committed w' = t0
                end -> Q o w') ->
  wp (pool_query E s) Q w.
Proof.
  intros H0 HQ. unfold wp, pool_query, pop_db_fault.
  destruct (mjoin _); [apply HQ; simpl; eauto|]. simpl.
  destruct (exec E s (committed w)) as [e|[rows t']] eqn:Hexec;
    apply HQ; simpl; congruence.
Qed.

End Statements.

Create HintDb quiet.
#[local] Hint Resolve silent_pool_connect silent_client_release silent_console_error
  silent_console_log silent_fs_existsSync silent_fs_mkdirSync silent_fs_unlink
  silent_upload silent_js_trim silent_join_cwd
  returns_client_release returns_console_error returns_console_log
  returns_fs_existsSync returns_upload : quiet.

(** One step of a run: a rule for the construct at hand, or the lemma of
    the operation, with the case analysis it leaves. *)
Ltac wp_statement :=
  lazymatch goal with
  | |- wp (client_query _ BEGIN) _ _ =>
      eapply wp_begin; [eassumption|]; intros [?|?] ? ? ?
  | |- wp (client_query _ COMMIT) _ _ =>
      eapply wp_commit; [eassumption|]; intros [?|?] ? ?
  | |- wp (client_query _ ROLLBACK) _ _ =>
      eapply wp_rollback; [eassumption|]; intros [?|?] ? ?
  | |- wp (client_query _ _) _ _ =>
      first [ eapply wp_query_in_txn; [reflexivity|eassumption|eassumption|];
              intros [?|?] ? ? ?
            | eapply wp_query_read; [reflexivity|eassumption|]; intros [?|?] ? ? ? ]
  | |- wp (pool_query _ _) _ _ =>
      eapply wp_pool_query; [eassumption|];
      let Hexec := fresh "Hexec" in
      intros [?|?] ? Hexec;
      [try (let Hread := fresh "Hread" in
            pose proof Hexec as Hread;
            apply exec_read_only in Hread; [|reflexivity])|]
  end.

Ltac wp_operation :=
  first
    [ eapply wp_quiet; [solve [auto with quiet]|solve [auto with quiet]|eassumption|];
      intros ? ? ? ?
    | eapply wp_returns; [solve [auto with quiet]|]; intros ? ?
    | eapply wp_silent; [solve [auto with quiet]|eassumption|]; intros [?|?] ? ? ?
    | eapply wp_any; intros [?|?] ? ].

Ltac wp_leaf :=
  lazymatch goal with
  | |- safe _ (Returned _) _ =>
      first
        [ left; reflexivity
        | right; split; [|assumption];
          try match goal with E : env |- _ => destruct (development E) end;
          (split; [eexists _, _; split; reflexivity
                  |intros ? [= <-]; split; reflexivity]) ]
  | |- safe _ (Thrown _) _ => assumption
  end.

Ltac wp_step :=
  first
    [ progress cbv beta iota zeta
    | apply wp_bind
    | apply wp_try_catch
    | apply wp_try_finally
    | apply wp_ret
    | apply wp_throw
    | wp_leaf
    | wp_statement
    | lazymatch goal with
      | |- wp (if ?b then _ else _) _ _ => destruct b eqn:?
      | |- wp (match ?x with _ => _ end) _ _ => destruct x eqn:?
      end
    | wp_operation ].

Ltac wp_run := repeat wp_step.

Ltac start_at t0 w :=
  let H0 := fresh "H0" in
  remember (committed w) as t0 eqn:H0; symmetry in H0.

Lemma getProfile_safe (E : env) (user : auth_user) (w : world) :
  wp (getProfile E user) (safe (committed w)) w.
Proof. start_at t0 w. unfold getProfile. wp_run. Qed.

Lemma updateProfile_safe (E : env) (user : auth_user)
    (major interests custom_user_id display_name : option json) (w : world) :
  wp (updateProfile E user major interests custom_user_id display_name)
    (safe (committed w)) w.
Proof. start_at t0 w. unfold updateProfile. wp_run. Qed.

Lemma updateAssessment_safe (E : env) (user : auth_user) (results : option json) (w : world) :
  wp (updateAssessment E user results) (safe (committed w)) w.
Proof. start_at t0 w. unfold updateAssessment. wp_run. Qed.

Lemma deleteAssessmentResults_safe (E : env) (user : auth_user) (dates : option (list json))
    (w : world) :
  wp (deleteAssessmentResults E user dates) (safe (committed w)) w.
Proof.
  start_at t0 w. unfold deleteAssessmentResults. wp_run.
  match goal with
  | Hexec : exec _ _ _ = inr (?rows, _), Hlen : (length ?rows =? 0)%nat = true |- _ =>
      destruct rows; [apply exec_delete_results_no_row in Hexec|discriminate Hlen]
  end.
  wp_leaf.
Qed.

Lemma updateCustomId_safe (E : env) (user : auth_user) (custom_user_id : option json)
    (w : world) :
  wp (updateCustomId E user custom_user_id) (safe (committed w)) w.
Proof. start_at t0 w. unfold updateCustomId. wp_run. Qed.

Lemma checkCustomId_safe (E : env) (user : auth_user) (custom_user_id : option json)
    (w : world) :
  wp (checkCustomId E user custom_user_id) (safe (committed w)) w.
Proof. start_at t0 w. unfold checkCustomId. wp_run. Qed.

Lemma updateProfilePhoto_safe (E : env) (user : auth_user) (file : upload_result) (w : world) :
  wp (updateProfilePhoto E user file) (safe (committed w)) w.
Proof. start_at t0 w. unfold updateProfilePhoto. wp_run. Qed.

Lemma deleteUser_safe (E : env) (user : auth_user) (w : world) :
  wp (deleteUser E user) (safe (committed w)) w.
Proof. start_at t0 w. unfold deleteUser. wp_run. Qed.

Lemma checkUsername_safe (E : env) (user : auth_user) (username : string) (w : world) :
  wp (checkUsername E user username) (safe (committed w)) w.
Proof. start_at t0 w. unfold checkUsername. wp_run. Qed.

(** Every handler, whatever fails: an answer other than 200 carries an
    [error] property and is no row of the tables, and with it, as with a
    throw, the committed tables are those from before the call. *)
Lemma handler_safe (E : env) (op : operation) (w : world) :
  wp (handler E op) (safe (committed w)) w.
Proof.
  destruct op; simpl.
  - apply getProfile_safe.
  - apply updateProfile_safe.
  - apply updateAssessment_safe.
  - apply deleteAssessmentResults_safe.
  - apply updateCustomId_safe.
  - apply checkCustomId_safe.
  - apply updateProfilePhoto_safe.
  - apply deleteUser_safe.
  - apply checkUsername_safe.
Qed.

(** C5.  The code at a statement that fails: [deleteAssessmentResults],
    asked to delete one date while the database is out of reach, logs the
    error and throws it again.  The handler sends no answer, so there is no
    JSON body and no [error] property; the tables are those from before the
    call. *)
Theorem deleteAssessmentResults_failure_sends_no_answer :
  exists w',
    handler sample_env
      (DeleteAssessmentResults (authenticated "u1" (Some "alice@example.org"))
         (Some [JStr "2024-01-01"]))
      sample_world_down
    = (Thrown (Error "connection refused"), w')
    /\ trace w'
       = [PoolQuery (UPDATE_delete_results [Some "2024-01-01"] 1 (Some "u1"));
          ConsoleError "Error deleting assessment results:" (Error "connection refused")]
    /\ committed w' = committed sample_world_down.
Proof.
  eexists. split; [reflexivity|]. split; reflexivity.
Qed.

(** ** The conflict targets of the lazy inserts *)

(** [ON CONFLICT (id) DO NOTHING]: inserting a user that exists changes
    nothing. *)
Lemma INSERT_user_conflict (E : env) (id : string) (em dn : option string)
    (t : tables) (u : user_row) :
  users t !! id = Some u -> exec E (INSERT_user (Some id) em dn) t = inr ([], t).
Proof. intros H. simpl. rewrite H. reflexivity. Qed.

(** [ON CONFLICT (user_id) DO NOTHING] *)
Lemma INSERT_profile_conflict (E : env) (id : string) (t : tables) (p : profile_row) :
  user_profiles t !! id = Some p -> exec E (INSERT_profile (Some id)) t = inr ([], t).
Proof. intros H. simpl. rewrite H. reflexivity. Qed.

(** ** The properties on the sample deployment *)

Lemma sample_world_healthy : healthy sample_world.
Proof. split; reflexivity. Qed.

Lemma getProfile_fresh_user_witness :
  exists record w',
    getProfile sample_env (authenticated "u9" (Some "carol@example.org")) sample_world
    = (Returned (res_json (Some record)), w')
    /\ jget "completed_assessments" record = Some (JNum 0)
    /\ jget "interests" record = Some (JArr [])
    /\ jget "assessment_results" record = Some JNull.
Proof.
  destruct (getProfile_fresh_user sample_env "u9" (Some "carol@example.org") sample_world)
    as (record & w' & Hrun & _ & Hc & Hi & Ha & _).
  - split; reflexivity.
  - vm_compute. reflexivity.
  - vm_compute. reflexivity.
  - exists record, w'. auto.
Defined.

Lemma updateProfile_blank_display_name_witness :
  updateProfile sample_env (authenticated "u1" None) None None (Some (JStr "alice_2"))
    (Some (JStr "  ")) sample_world
  = (Returned (res_status_json 400 (Some (JObj [("error", JStr "Display name is required")]))),
     sample_world).
Proof.
  apply updateProfile_blank_display_name.
  right. exists "  ". split; reflexivity.
Defined.

Lemma updateAssessment_replaces_and_counts_witness :
  (exists w',
     updateAssessment sample_env (authenticated "u1" None)
       (Some (JArr [result_of "2024-02-01"; result_of "2024-02-02"])) sample_world
     = (Returned
          (res_json
             (Some (profile_json "u1"
                      {| p_major := None; p_interests := JArr [];
                         p_completed_assessments := 4;
                         p_assessment_results :=
                           Some (JArr [result_of "2024-02-01"; result_of "2024-02-02"]) |}))),
        w'))
  /\ (exists w',
        updateAssessment sample_env (authenticated "u2" None) (Some (JArr [])) sample_world
        = (Returned
             (res_json
                (Some (profile_json "u2"
                         {| p_major := None; p_interests := JArr [];
                            p_completed_assessments := 1;
                            p_assessment_results := Some (JArr []) |}))),
           w')).
Proof.
  split.
  - destruct (updateAssessment_replaces_and_counts sample_env "u1" None
                (Some (JArr [result_of "2024-02-01"; result_of "2024-02-02"]))
                sample_world sample_world_healthy) as (Hrow & _).
    destruct (Hrow {| p_major := None; p_interests := JArr [];
                      p_completed_assessments := 3;
                      p_assessment_results :=
                        Some (JArr [result_of "2024-01-01"; result_of "2024-01-02";
                                    result_of "2024-01-03"]) |})
      as (w' & Hrun & _).
    + vm_compute. reflexivity.
    + exists w'. exact Hrun.
  - destruct (updateAssessment_replaces_and_counts sample_env "u2" None
                (Some (JArr [])) sample_world sample_world_healthy) as (_ & Hnone & _).
    destruct (Hnone {| u_email := Some "bob@example.org"; u_display_name := Some "bob";
                       u_photo_url := None; u_custom_user_id := Some "bob" |})
      as (w' & Hrun & _).
    + vm_compute. reflexivity.
    + vm_compute. reflexivity.
    + exists w'. exact Hrun.
Defined.

Lemma updateCustomId_conflict_or_update_witness :
  (exists w',
     updateCustomId sample_env (authenticated "u1" None) (Some (JStr "bob")) sample_world
     = (Returned (res_status_json 400
                    (Some (JObj [("error", JStr "This user ID is already taken")]))), w')
     /\ committed w' = committed sample_world)
  /\ (exists w',
        updateCustomId sample_env (authenticated "u1" None) (Some (JStr "alice_2")) sample_world
        = (Returned
             (res_json
                (Some (user_json "u1"
                         {| u_email := Some "alice@example.org";
                            u_display_name := Some "alice";
                            u_photo_url := Some "/uploads/profile-photos/a.png";
                            u_custom_user_id := Some "alice_2" |}))), w')).
Proof.
  split.
  - destruct (updateCustomId_conflict_or_update sample_env "u1" None (Some (JStr "bob"))
                sample_world sample_world_healthy) as [Htaken _].
    apply Htaken.
    exists "bob", "u2",
      {| u_email := Some "bob@example.org"; u_display_name := Some "bob";
         u_photo_url := None; u_custom_user_id := Some "bob" |}.
    split; [reflexivity|]. split; [discriminate|].
    split; [vm_compute; reflexivity|reflexivity].
  - destruct (updateCustomId_conflict_or_update sample_env "u1" None (Some (JStr "alice_2"))
                sample_world sample_world_healthy) as [_ Hfree].
    destruct (Hfree) with
      (u := {| u_email := Some "alice@example.org"; u_display_name := Some "alice";
               u_photo_url := Some "/uploads/profile-photos/a.png";
               u_custom_user_id := Some "alice_1" |})
      as (w' & Hrun & _).
    + apply no_holder_iff. vm_compute. reflexivity.
    + vm_compute. reflexivity.
    + exists w'. exact Hrun.
Defined.

Lemma checkUsername_format_then_lookup_witness :
  checkUsername sample_env (authenticated "u1" None) "ab cd" sample_world
  = (Returned (res_status_json 400
                 (Some (JObj [("available", JBool false);
                              ("error", JStr "Invalid username format")]))), sample_world)
  /\ (exists b w',
        checkUsername sample_env (authenticated "u1" None) "bob" sample_world
        = (Returned (res_json (Some (JObj [("available", JBool b)]))), w')
        /\ (b = true <-> ~ taken_by_other (committed sample_world) (Some "bob") "u1")).
Proof.
  split.
  - apply (checkUsername_format_then_lookup sample_env (authenticated "u1" None) "u1" None
             "ab cd" sample_world).
    reflexivity.
  - destruct (checkUsername_format_then_lookup sample_env (authenticated "u1" None) "u1" None
                "bob" sample_world) as [_ Hlookup].
    destruct Hlookup as (b & w' & Hrun & Hb & _).
    + reflexivity.
    + exact sample_world_healthy.
    + exists b, w'. auto.
Defined.

Lemma deleteUser_survives_photo_failure_witness :
  exists w',
    deleteUser sample_env (authenticated "u1" None) sample_world
    = (Returned (res_status_json 200
                   (Some (JObj [("message", JStr "User deleted successfully")]))), w')
    /\ users (committed w') = delete "u1" (users (committed sample_world))
    /\ user_profiles (committed w') = delete "u1" (user_profiles (committed sample_world))
    /\ files w' = files sample_world.
Proof.
  destruct (deleteUser_survives_photo_failure sample_env "u1" None sample_world
              {| u_email := Some "alice@example.org"; u_display_name := Some "alice";
                 u_photo_url := Some "/uploads/profile-photos/a.png";
                 u_custom_user_id := Some "alice_1" |}
              {| p_major := None; p_interests := JArr [];
                 p_completed_assessments := 3;
                 p_assessment_results :=
                   Some (JArr [result_of "2024-01-01"; result_of "2024-01-02";
                               result_of "2024-01-03"]) |})
    as (w' & cleanup & Hrun & Hu & Hp & _ & _ & _ & Hphoto).
  - discriminate.
  - exact sample_world_healthy.
  - vm_compute. reflexivity.
  - vm_compute. reflexivity.
  - destruct (Hphoto "/uploads/profile-photos/a.png") as (photoErr & _ & Hfiles).
    + reflexivity.
    + discriminate.
    + right. simpl. apply not_elem_of_empty.
    + exists w'. auto.
Defined.

Lemma updateProfile_clears_custom_user_id_witness :
  exists r w',
    updateProfile sample_env (authenticated "u1" None) None None None (Some (JStr " Alice "))
      sample_world
    = (Returned r, w')
    /\ status r = 200
    /\ users (committed w') !! "u1"
       = Some {| u_email := Some "alice@example.org"; u_display_name := Some "Alice";
                 u_photo_url := Some "/uploads/profile-photos/a.png";
                 u_custom_user_id := None |}.
Proof.
  apply (updateProfile_clears_custom_user_id sample_env "u1" None None None None " Alice "
           sample_world
           {| u_email := Some "alice@example.org"; u_display_name := Some "alice";
              u_photo_url := Some "/uploads/profile-photos/a.png";
              u_custom_user_id := Some "alice_1" |}).
  - exact sample_world_healthy.
  - reflexivity.
  - discriminate.
  - vm_compute. reflexivity.
Defined.

Lemma getProfile_display_name_is_local_part_witness :
  exists r w' u,
    getProfile sample_env (authenticated "u9" (Some "carol@example.org")) sample_world
    = (Returned r, w')
    /\ users (committed w') !! "u9" = Some u
    /\ u_display_name u = Some "carol".
Proof.
  destruct (getProfile_display_name_is_local_part sample_env "u9" (Some "carol@example.org")
              sample_world)
    as (r & w' & u & Hrun & Hu & Hname & _).
  - exact sample_world_healthy.
  - vm_compute. reflexivity.
  - exists r, w', u. auto.
Defined.

(** * Further properties of the controller *)

(** ** Runs in a world where the database answers *)

Lemma healthy_logged (evs : list event) (t : tables) (w : world) :
  healthy w -> healthy (logged evs (set_committed t w)).
Proof. intros [Htxn Hfaults]. split; assumption. Qed.

Lemma committed_logged (evs : list event) (t : tables) (w : world) :
  committed (logged evs (set_committed t w)) = t.
Proof. reflexivity. Qed.

Ltac close_run :=
  unfold logged, set_committed; simpl; rewrite <- ?app_assoc; reflexivity.

(** The path of [getProfile] for a user that has a row. *)
Lemma getProfile_reads (E : env) (id : string) (em : option string) (w : world) (u : user_row) :
  healthy w ->
  users (committed w) !! id = Some u ->
  getProfile E (authenticated id em) w
  = (Returned (res_json (Some (joined_json id u (user_profiles (committed w) !! id)))),
     logged [Connect; ClientQuery (SELECT_profile true (Some id)); Release]
       (set_committed (committed w) w)).
Proof.
  intros [Htxn Hfaults] Hu. open_world w.
  run. rewrite Hu. run.
  destruct (ps !! id) eqn:Hp; run; f_equal; close_run.
Qed.

(** The path of [getProfile] for a user that has none. *)
Lemma getProfile_creates (E : env) (id : string) (em : option string) (w : world) :
  healthy w ->
  users (committed w) !! id = None ->
  let u := new_user em (split_at_first <$> em) in
  let p := default default_profile (user_profiles (committed w) !! id) in
  getProfile E (authenticated id em) w
  = (Returned (res_json (Some (joined_json id u (Some p)))),
     logged [Connect;
             ClientQuery (SELECT_profile true (Some id));
             ClientQuery BEGIN;
             ClientQuery (INSERT_user (Some id) em (split_at_first <$> em));
             ClientQuery (INSERT_profile (Some id));
             ClientQuery (SELECT_profile true (Some id));
             ClientQuery COMMIT;
             Release]
       (set_committed {| users := <[id := u]> (users (committed w));
                         user_profiles := <[id := p]> (user_profiles (committed w)) |} w)).
Proof.
  intros [Htxn Hfaults] Hu. open_world w.
  run. rewrite Hu. run. rewrite Hu. run.
  destruct (ps !! id) as [p|] eqn:Hp; run; rewrite !lookup_insert_eq; run;
    try rewrite Hp; try rewrite lookup_insert_eq; run; simpl default.
  - rewrite (insert_id ps id p Hp). f_equal. close_run.
  - f_equal. close_run.
Qed.

(** ** getProfile on an existing user *)

(** X1.  For a user that has a row in [users], [getProfile] only reads: it
    answers with the joined row, sends one SELECT and nothing else, and
    leaves the tables as they are.  Without a row in [user_profiles] the
    profile columns of the answer are null. *)
Theorem getProfile_existing_user_only_reads
    (E : env) (id : string) (em : option string) (w : world) (u : user_row) :
  healthy w ->
  users (committed w) !! id = Some u ->
  exists record w',
    getProfile E (authenticated id em) w = (Returned (res_json (Some record)), w')
    /\ record = joined_json id u (user_profiles (committed w) !! id)
    /\ committed w' = committed w
    /\ trace w' = (trace w ++ [Connect; ClientQuery (SELECT_profile true (Some id));
                               Release])%list
    /\ (user_profiles (committed w) !! id = None ->
        jget "major" record = Some JNull
        /\ jget "interests" record = Some JNull
        /\ jget "completed_assessments" record = Some JNull
        /\ jget "assessment_results" record = Some JNull).
Proof.
  intros Hw Hu. eexists _, _. split; [apply getProfile_reads; eassumption|].
  split; [reflexivity|]. split; [reflexivity|]. split; [reflexivity|].
  intros ->. repeat split.
Qed.

(** X2.  [getProfile] is idempotent: a second call gives the answer of the
    first and leaves the tables as the first left them, whether the first
    had to create the rows or not. *)
Theorem getProfile_twice_same_answer
    (E : env) (id : string) (em : option string) (w : world) :
  healthy w ->
  let first := getProfile E (authenticated id em) w in
  let second := getProfile E (authenticated id em) (snd first) in
  fst second = fst first
  /\ committed (snd second) = committed (snd first).
Proof.
  intros Hw. cbv zeta.
  destruct (users (committed w) !! id) as [u|] eqn:Hu.
  - rewrite (getProfile_reads E id em w u Hw Hu). cbn [fst snd].
    rewrite (getProfile_reads E id em _ u (healthy_logged _ _ _ Hw)) by exact Hu.
    split; reflexivity.
  - rewrite (getProfile_creates E id em w Hw Hu). cbn [fst snd].
    erewrite (getProfile_reads E id em _ _ (healthy_logged _ _ _ Hw)).
    2: { rewrite committed_logged. cbn [users]. apply lookup_insert_eq. }
    rewrite !committed_logged. cbn [fst snd users user_profiles].
    rewrite lookup_insert_eq. split; reflexivity.
Qed.

(** ** updateAssessment, then getProfile *)

Lemma updateAssessment_run (E : env) (id : string) (em : option string)
    (results : option json) (w : world) (u : user_row) :
  healthy w ->
  users (committed w) !! id = Some u ->
  let p' := match user_profiles (committed w) !! id with
            | Some p => {| p_major := p_major p; p_interests := p_interests p;
                           p_completed_assessments := p_completed_assessments p + 1;
                           p_assessment_results := results |}
            | None => {| p_major := None; p_interests := JArr [];
                         p_completed_assessments := 1;
                         p_assessment_results := results |}
            end in
  exists evs,
    updateAssessment E (authenticated id em) results w
    = (Returned (res_json (Some (profile_json id p'))),
       logged evs
         (set_committed {| users := users (committed w);
                           user_profiles := <[id := p']> (user_profiles (committed w)) |} w)).
Proof.
  intros [Htxn Hfaults] Hu. open_world w.
  destruct (ps !! id) as [p|] eqn:Hp; run; rewrite Hp; run; rewrite Hp; run;
    try (rewrite Hu; run);
    eexists [_; _]; f_equal; close_run.
Qed.

(** X3.  What [updateAssessment] stores is what [getProfile] then shows:
    the payload as [assessment_results] (null when the request had none)
    and the counter one above its former value, or 1 when there was no
    profile row. *)
Theorem updateAssessment_then_getProfile
    (E : env) (id : string) (em : option string) (results : option json)
    (w : world) (u : user_row) :
  healthy w ->
  users (committed w) !! id = Some u ->
  exists record w',
    getProfile E (authenticated id em) (snd (updateAssessment E (authenticated id em) results w))
    = (Returned (res_json (Some record)), w')
    /\ jget "assessment_results" record = Some (of_jsonb results)
    /\ jget "completed_assessments" record
       = Some (JNum (match user_profiles (committed w) !! id with
                     | Some p => p_completed_assessments p + 1
                     | None => 1
                     end)).
Proof.
  intros Hw Hu.
  destruct (updateAssessment_run E id em results w u Hw Hu) as [evs ->]. cbn [snd].
  erewrite (getProfile_reads E id em _ u (healthy_logged _ _ _ Hw)) by exact Hu.
  eexists _, _. split; [reflexivity|].
  rewrite committed_logged. cbn [user_profiles]. rewrite lookup_insert_eq.
  destruct (user_profiles (committed w) !! id); split; reflexivity.
Qed.

(** ** deleteUser *)

Lemma photo_url_of_no_row :
  (None : option json) ≫= jget "photo_url" = None.
Proof. reflexivity. Qed.

(** [deleteUser] in a world where the database answers, whatever the disk
    does and whether or not the rows exist. *)
Lemma deleteUser_run (E : env) (id : string) (em : option string) (w : world) :
  id <> "" ->
  healthy w ->
  exists w',
    deleteUser E (authenticated id em) w
    = (Returned (res_status_json 200
                   (Some (JObj [("message", JStr "User deleted successfully")]))), w')
    /\ committed w' = {| users := delete id (users (committed w));
                         user_profiles := delete id (user_profiles (committed w)) |}
    /\ healthy w'.
Proof.
  intros Hid [Htxn Hfaults]. open_world w.
  assert (Hne : String.eqb id "" = false) by (apply String.eqb_neq, Hid).
  run. cbn [fmap option_fmap option_map js_truthy truthy]. rewrite Hne. run.
  destruct (us !! id) as [u|] eqn:Hu; run.
  2: { eexists. split; [reflexivity|]. split; [reflexivity|split; reflexivity]. }
  change (option_bind json json (jget "photo_url")) with (mbind (jget "photo_url")).
  rewrite photo_url_of_row.
  destruct (u_photo_url u) as [url|]; cbn [of_text js_truthy truthy].
  2: { run. eexists. split; [reflexivity|]. split; [reflexivity|split; reflexivity]. }
  destruct (String.eqb url "") eqn:Hurl; run.
  { eexists. split; [reflexivity|]. split; [reflexivity|split; reflexivity]. }
  destruct fs_faults0 as [|[e|] rest]; run;
    try (destruct (bool_decide (path_join E (cwd E) url ∈ files0)); run);
    (eexists; split; [reflexivity|]; split; [reflexivity|split; reflexivity]).
Qed.

(** X4.  After [deleteUser], [getProfile] by the same user creates the
    account anew: the record it returns is that of a first call, with the
    counter at 0, no interests, no results, no custom id and no photo,
    whatever the deleted rows held. *)
Theorem deleteUser_then_getProfile_starts_over
    (E : env) (id : string) (em : option string) (w : world) :
  id <> "" ->
  healthy w ->
  exists w',
    getProfile E (authenticated id em) (snd (deleteUser E (authenticated id em) w))
    = (Returned (res_json (Some (joined_json id (new_user em (split_at_first <$> em))
                                   (Some default_profile)))), w')
    /\ users (committed w') !! id = Some (new_user em (split_at_first <$> em))
    /\ user_profiles (committed w') !! id = Some default_profile.
Proof.
  intros Hid Hw.
  destruct (deleteUser_run E id em w Hid Hw) as (w1 & -> & Hc & Hw1). cbn [snd].
  rewrite (getProfile_creates E id em w1 Hw1); rewrite Hc; cbn [users user_profiles].
  - rewrite lookup_delete_eq. cbn [default].
    eexists. split; [reflexivity|].
    rewrite committed_logged. cbn [users user_profiles].
    rewrite !lookup_insert_eq. split; reflexivity.
  - apply lookup_delete_eq.
Qed.

(** X5.  Without a [uid], or with an empty one, [deleteUser] answers 401
    and does nothing else: no connection, no statement, no file touched. *)
Theorem deleteUser_unauthenticated (E : env) (user : auth_user) (w : world) :
  uid user = None \/ uid user = Some "" ->
  deleteUser E user w
  = (Returned (res_status_json 401 (Some (JObj [("error", JStr "Unauthorized")]))), w).
Proof.
  intros [H|H]; unfold deleteUser; rewrite H; reflexivity.
Qed.

(** X6.  When the user's row names a photo, the file is on disk and the
    disk does not refuse, [deleteUser] removes that file and no other. *)
Theorem deleteUser_removes_photo_file
    (E : env) (id : string) (em : option string) (w : world) (u : user_row) (url : string) :
  id <> "" ->
  healthy w ->
  users (committed w) !! id = Some u ->
  u_photo_url u = Some url ->
  url <> "" ->
  mjoin (head (fs_faults w)) = None ->
  path_join E (cwd E) url ∈ files w ->
  exists r w',
    deleteUser E (authenticated id em) w = (Returned r, w')
    /\ status r = 200
    /\ files w' = files w ∖ {[path_join E (cwd E) url]}.
Proof.
  intros Hid [Htxn Hfaults] Hu Hphoto Hurl Hfs Hfile. open_world w.
  assert (Hne : String.eqb id "" = false) by (apply String.eqb_neq, Hid).
  assert (Hne' : String.eqb url "" = false) by (apply String.eqb_neq, Hurl).
  pose proof (bool_decide_eq_true_2 _ Hfile) as Hdec.
  run. cbn [fmap option_fmap option_map js_truthy truthy]. rewrite Hne. run.
  rewrite Hu. run.
  change (option_bind json json (jget "photo_url")) with (mbind (jget "photo_url")).
  rewrite photo_url_of_row, Hphoto. cbn [of_text js_truthy truthy]. rewrite Hne'. run.
  change (match match fs_faults0 with [] => None | x :: _ => Some x end with
          | Some mx => mx | None => None end) with (mjoin (head fs_faults0)).
  rewrite Hfs. run. rewrite Hdec. run.
  eexists _, _. split; [reflexivity|]. split; reflexivity.
Qed.

(** ** deleteAssessmentResults *)

Lemma deleteAssessmentResults_run (E : env) (id : string) (em : option string)
    (ds : list json) (w : world) (p : profile_row) (kept : option json) :
  healthy w ->
  user_profiles (committed w) !! id = Some p ->
  remaining_results E (List.map (fun d => param_text E (Some d)) ds) (p_assessment_results p)
  = inr kept ->
  let p' := {| p_major := p_major p; p_interests := p_interests p;
               p_completed_assessments := p_completed_assessments p - Z.of_nat (length ds);
               p_assessment_results := kept |} in
  exists evs,
    deleteAssessmentResults E (authenticated id em) (Some ds) w
    = (Returned (res_json (Some (profile_json id p'))),
       logged evs
         (set_committed {| users := users (committed w);
                           user_profiles := <[id := p']> (user_profiles (committed w)) |} w)).
Proof.
  intros [Htxn Hfaults] Hp Hkept.
  destruct w as [[us ps] t f fl ff tr].
  cbn [txn db_faults committed user_profiles users] in *. subst.
  run. rewrite Hp. run. rewrite Hkept. run.
  eexists [_]. reflexivity.
Qed.

(** What one date keeps: the entries that carry a date other than it, in
    their order. *)
Lemma kept_by_one_date (E : env) (d : string) (items : list json) (r : json) :
  In r (List.filter (fun result => match field_text E "date" result with
                                   | Some x => negb (String.eqb x d)
                                   | None => false
                                   end) items)
  <-> In r items /\ exists x, field_text E "date" r = Some x /\ x <> d.
Proof.
  rewrite filter_In. split; intros [Hin H]; (split; [exact Hin|]).
  - destruct (field_text E "date" r) as [x|]; [|discriminate].
    exists x. split; [reflexivity|]. apply String.eqb_neq, negb_true_iff, H.
  - destruct H as (x & -> & Hx). apply negb_true_iff, String.eqb_neq, Hx.
Qed.

(** X7.  With one date [d], [deleteAssessmentResults] keeps, in their
    order, exactly the entries that carry a date other than [d]; the entries
    dated [d] go, and so do the entries without a date.  The counter goes
    down by 1 whatever was removed. *)
Theorem deleteAssessmentResults_one_date
    (E : env) (id : string) (em : option string) (d : string) (w : world)
    (p : profile_row) (items : list json) :
  healthy w ->
  user_profiles (committed w) !! id = Some p ->
  p_assessment_results p = Some (JArr items) ->
  exists kept w',
    deleteAssessmentResults E (authenticated id em) (Some [JStr d]) w
    = (Returned
         (res_json
            (Some (profile_json id
                     {| p_major := p_major p; p_interests := p_interests p;
                        p_completed_assessments := p_completed_assessments p - 1;
                        p_assessment_results := jsonb_agg kept |}))), w')
    /\ (p_assessment_results <$> user_profiles (committed w') !! id) = Some (jsonb_agg kept)
    /\ (forall r, In r kept
                  <-> In r items /\ exists x, field_text E "date" r = Some x /\ x <> d)
    /\ exists pick, kept = List.filter pick items.
Proof.
  intros Hw Hp Hitems.
  edestruct (deleteAssessmentResults_run E id em [JStr d] w p) as [evs Hrun];
    [exact Hw|exact Hp|rewrite Hitems; apply remaining_results_one_date|].
  eexists _, _. split; [exact Hrun|].
  rewrite committed_logged. cbn [user_profiles]. rewrite lookup_insert_eq.
  split; [reflexivity|]. split; [apply kept_by_one_date|]. eexists. reflexivity.
Qed.

Lemma ne_any_none (x : option string) : ne_any x [] = false.
Proof. destruct x; reflexivity. Qed.

Lemma remaining_results_no_date (E : env) (items : list json) :
  remaining_results E [] (Some (JArr items)) = inr None.
Proof.
  unfold remaining_results. do 2 f_equal.
  induction items as [|r items IH]; [reflexivity|].
  simpl. rewrite ne_any_none. exact IH.
Qed.

(** X8.  With an empty list of dates, [deleteAssessmentResults] removes
    every entry: nothing differs from "one of none", so
    [assessment_results] becomes null, while the counter stays. *)
Theorem deleteAssessmentResults_no_dates_clears_all
    (E : env) (id : string) (em : option string) (w : world)
    (p : profile_row) (items : list json) :
  healthy w ->
  user_profiles (committed w) !! id = Some p ->
  p_assessment_results p = Some (JArr items) ->
  exists w',
    deleteAssessmentResults E (authenticated id em) (Some []) w
    = (Returned
         (res_json
            (Some (profile_json id
                     {| p_major := p_major p; p_interests := p_interests p;
                        p_completed_assessments := p_completed_assessments p;
                        p_assessment_results := None |}))), w')
    /\ (p_assessment_results <$> user_profiles (committed w') !! id) = Some None.
Proof.
  intros Hw Hp Hitems.
  destruct (deleteAssessmentResults_run E id em [] w p None Hw Hp) as [evs Hrun].
  { rewrite Hitems. apply remaining_results_no_date. }
  simpl in Hrun. rewrite Z.sub_0_r in Hrun.
  eexists. split; [exact Hrun|].
  rewrite committed_logged. cbn [user_profiles]. rewrite lookup_insert_eq. reflexivity.
Qed.

(** X9.  Without a profile row, [deleteAssessmentResults] answers 404 with
    "Profile not found" and the tables stay as they are. *)
Theorem deleteAssessmentResults_no_profile
    (E : env) (id : string) (em : option string) (ds : list json) (w : world) :
  healthy w ->
  user_profiles (committed w) !! id = None ->
  exists w',
    deleteAssessmentResults E (authenticated id em) (Some ds) w
    = (Returned (res_status_json 404 (Some (JObj [("error", JStr "Profile not found")]))), w')
    /\ committed w' = committed w.
Proof.
  intros [Htxn Hfaults] Hp. open_world w.
  run. rewrite Hp. run. eexists. split; reflexivity.
Qed.

(** X10.  [deleteAssessmentResults] never answers 500: it answers 200 or
    404, and rethrows what fails.  A body without [dates] throws the
    TypeError of [dates.length] before any statement is sent; a failing
    statement throws its error, with the tables unchanged. *)
Theorem deleteAssessmentResults_rethrows
    (E : env) (user : auth_user) (dates : option (list json)) (w : world) :
  let run := deleteAssessmentResults E user dates w in
  (dates = None ->
     let err := TypeError "Cannot read properties of undefined (reading 'length')" in
     run = (Thrown err, logged [ConsoleError "Error deleting assessment results:" err] w))
  /\ (forall ds err, dates = Some ds -> mjoin (head (db_faults w)) = Some err ->
        fst run = Thrown err /\ committed (snd run) = committed w)
  /\ (forall r, fst run = Returned r -> status r = 200 \/ status r = 404).
Proof.
  cbv zeta. split; [intros ->; reflexivity|]. split.
  - intros ds err -> Hfault.
    unfold deleteAssessmentResults, try_catch, mbind, M_bind, pool_query, pop_db_fault.
    cbn [log db_faults]. rewrite Hfault. split; reflexivity.
  - intros r. destruct dates as [ds|]; [|discriminate].
    unfold deleteAssessmentResults, try_catch, mbind, M_bind, pool_query, pop_db_fault.
    cbn [log db_faults].
    destruct (mjoin (head (db_faults w))); [discriminate|].
    destruct (exec E _ _) as [err|[rows t]]; [discriminate|].
    destruct rows; cbn; intros [= <-]; auto.
Qed.

(** X11.  The counter goes down by the number of dates given, not by the
    number of entries removed, and nothing keeps it from falling below
    zero: with more dates than the counter holds, the answer carries a
    negative [completed_assessments]. *)
Theorem deleteAssessmentResults_counter_below_zero
    (E : env) (id : string) (em : option string) (ds : list json) (w : world)
    (p : profile_row) (kept : option json) :
  healthy w ->
  user_profiles (committed w) !! id = Some p ->
  remaining_results E (List.map (fun d => param_text E (Some d)) ds) (p_assessment_results p)
  = inr kept ->
  p_completed_assessments p < Z.of_nat (length ds) ->
  exists record w' n,
    deleteAssessmentResults E (authenticated id em) (Some ds) w
    = (Returned (res_json (Some record)), w')
    /\ jget "completed_assessments" record = Some (JNum n)
    /\ n = p_completed_assessments p - Z.of_nat (length ds)
    /\ n < 0.
Proof.
  intros Hw Hp Hkept Hlt.
  destruct (deleteAssessmentResults_run E id em ds w p kept Hw Hp Hkept) as [evs Hrun].
  eexists _, _, _. split; [exact Hrun|].
  split; [reflexivity|]. split; [reflexivity|]. simpl. lia.
Qed.

(** ** updateProfile *)

Lemma trim_nonempty_truthy (s : string) : trim s <> "" -> String.eqb s "" = false.
Proof.
  intros Hs. destruct s; [|reflexivity]. exfalso. apply Hs. reflexivity.
Qed.

Lemma trim_nonempty_length (s : string) :
  trim s <> "" -> (String.length (trim s) =? 0)%nat = false.
Proof.
  intros Hs. destruct (String.length (trim s) =? 0)%nat eqn:H; [|reflexivity].
  apply length_zero_empty in H. contradiction.
Qed.

(** [updateProfile] with a valid display name, for a user that has a row,
    in a world where the database answers. *)
Lemma updateProfile_run (E : env) (id : string) (em : option string)
    (major interests custom_user_id : option json) (s : string) (w : world) (u : user_row) :
  healthy w ->
  trim s <> "" ->
  users (committed w) !! id = Some u ->
  let u' := {| u_email := u_email u; u_display_name := Some (trim s);
               u_photo_url := u_photo_url u;
               u_custom_user_id := param_text E (or_null custom_user_id) |} in
  let change p := {| p_major := param_text E (or_null major);
                     p_interests := or_empty_array interests;
                     p_completed_assessments := p_completed_assessments p;
                     p_assessment_results := p_assessment_results p |} in
  exists evs,
    updateProfile E (authenticated id em) major interests custom_user_id (Some (JStr s)) w
    = (Returned (res_json (joined_json id u' <$> (Some <$> (change <$> user_profiles (committed w) !! id)))),
       logged evs
         (set_committed
            {| users := <[id := u']> (users (committed w));
               user_profiles := match user_profiles (committed w) !! id with
                                | Some p => <[id := change p]> (user_profiles (committed w))
                                | None => user_profiles (committed w)
                                end |} w)).
Proof.
  intros [Htxn Hfaults] Hs Hu.
  pose proof (trim_nonempty_truthy s Hs) as Hne.
  pose proof (trim_nonempty_length s Hs) as Hlen.
  destruct w as [[us ps] t f fl ff tr].
  cbn [txn db_faults committed user_profiles users] in *. subst.
  run. cbn [js_truthy truthy]. rewrite Hne. run. rewrite Hlen. run.
  rewrite Hu. run.
  destruct (ps !! id) as [p|] eqn:Hp; run; rewrite lookup_insert_eq; run;
    try rewrite lookup_insert_eq; try rewrite Hp; run;
    eexists [_; _; _; _; _; _; _]; f_equal; close_run.
Qed.

(** X12.  For a user with a row in [users] and none in [user_profiles],
    [updateProfile] commits the change to the user row and answers 200 with
    no body at all: the final SELECT is an inner join and finds nothing. *)
Theorem updateProfile_without_profile_row
    (E : env) (id : string) (em : option string)
    (major interests custom_user_id : option json) (s : string) (w : world) (u : user_row) :
  healthy w ->
  trim s <> "" ->
  users (committed w) !! id = Some u ->
  user_profiles (committed w) !! id = None ->
  exists w',
    updateProfile E (authenticated id em) major interests custom_user_id (Some (JStr s)) w
    = (Returned (res_json None), w')
    /\ (u_display_name <$> users (committed w') !! id) = Some (Some (trim s))
    /\ user_profiles (committed w') = user_profiles (committed w).
Proof.
  intros Hw Hs Hu Hp.
  destruct (updateProfile_run E id em major interests custom_user_id s w u Hw Hs Hu)
    as [evs Hrun].
  rewrite Hp in Hrun. eexists. split; [exact Hrun|].
  rewrite committed_logged. cbn [users user_profiles]. rewrite lookup_insert_eq.
  split; reflexivity.
Qed.

(** X13.  With both rows present, [updateProfile] answers with the joined
    record after the change: the trimmed display name, [major] null and
    [interests] the empty list when the body gave none, and the counter and
    the results exactly as they were, which no body field can change. *)
Theorem updateProfile_returns_updated_record
    (E : env) (id : string) (em : option string)
    (major interests custom_user_id : option json) (s : string) (w : world)
    (u : user_row) (p : profile_row) :
  healthy w ->
  trim s <> "" ->
  users (committed w) !! id = Some u ->
  user_profiles (committed w) !! id = Some p ->
  exists record w' p',
    updateProfile E (authenticated id em) major interests custom_user_id (Some (JStr s)) w
    = (Returned (res_json (Some record)), w')
    /\ jget "display_name" record = Some (JStr (trim s))
    /\ jget "completed_assessments" record = Some (JNum (p_completed_assessments p))
    /\ jget "assessment_results" record = Some (of_jsonb (p_assessment_results p))
    /\ (js_truthy major = false -> jget "major" record = Some JNull)
    /\ (js_truthy interests = false -> jget "interests" record = Some (JArr []))
    /\ user_profiles (committed w') !! id = Some p'
    /\ p_completed_assessments p' = p_completed_assessments p
    /\ p_assessment_results p' = p_assessment_results p.
Proof.
  intros Hw Hs Hu Hp.
  destruct (updateProfile_run E id em major interests custom_user_id s w u Hw Hs Hu)
    as [evs Hrun].
  rewrite Hp in Hrun. eexists _, _, _. split; [exact Hrun|].
  rewrite committed_logged. cbn [user_profiles]. rewrite lookup_insert_eq.
  split; [reflexivity|]. split; [reflexivity|]. split; [reflexivity|].
  split; [|split; [|split; [reflexivity|split; reflexivity]]].
  - intros Hfalsy. cbn. rewrite (falsy_param_null E major Hfalsy). reflexivity.
  - intros Hfalsy. cbn. unfold or_empty_array.
    destruct interests as [v|]; [|reflexivity].
    simpl in Hfalsy. rewrite Hfalsy. reflexivity.
Qed.

Lemma trim_start_first (s : string) (c : ascii) :
  first_char (trim_start s) = Some c -> is_white_space c = false.
Proof.
  induction s as [|a s IH]; simpl; [discriminate|].
  destruct (is_white_space a) eqn:Ha; [exact IH|].
  simpl. intros [= <-]. exact Ha.
Qed.

Lemma trim_end_first (s : string) :
  trim_end s <> "" -> first_char (trim_end s) = first_char s.
Proof.
  destruct s as [|a s]; simpl; [reflexivity|].
  destruct (trim_end s); [destruct (is_white_space a)|]; simpl; congruence.
Qed.

Lemma trim_end_last (s : string) (c : ascii) :
  last_char (trim_end s) = Some c -> is_white_space c = false.
Proof.
  induction s as [|a s IH]; simpl; [discriminate|].
  destruct (trim_end s) as [|b kept] eqn:Hkept.
  - destruct (is_white_space a) eqn:Ha; simpl; [discriminate|].
    intros [= <-]. exact Ha.
  - exact IH.
Qed.

(** What [trim] returns neither begins nor ends with white space. *)
Lemma trim_edges (s : string) (c : ascii) :
  first_char (trim s) = Some c \/ last_char (trim s) = Some c -> is_white_space c = false.
Proof.
  unfold trim. intros [H|H].
  - rewrite trim_end_first in H.
    + apply (trim_start_first s c H).
    + intros Hempty. rewrite Hempty in H. discriminate.
  - apply (trim_end_last _ c H).
Qed.

(** X14.  The display name [updateProfile] stores is never empty and never
    begins or ends with white space, whatever surrounds it in the body. *)
Theorem updateProfile_stores_trimmed_name
    (E : env) (id : string) (em : option string)
    (major interests custom_user_id : option json) (s : string) (w : world) (u : user_row) :
  healthy w ->
  trim s <> "" ->
  users (committed w) !! id = Some u ->
  exists r w' name,
    updateProfile E (authenticated id em) major interests custom_user_id (Some (JStr s)) w
    = (Returned r, w')
    /\ (u_display_name <$> users (committed w') !! id) = Some (Some name)
    /\ name <> ""
    /\ (forall c, first_char name = Some c \/ last_char name = Some c ->
                  is_white_space c = false).
Proof.
  intros Hw Hs Hu.
  destruct (updateProfile_run E id em major interests custom_user_id s w u Hw Hs Hu)
    as [evs Hrun].
  eexists _, _, (trim s). split; [exact Hrun|].
  rewrite committed_logged. cbn [users]. rewrite lookup_insert_eq.
  split; [reflexivity|]. split; [exact Hs|]. apply trim_edges.
Qed.

(** X15.  A [display_name] that is truthy and not a string (a number, an
    array, an object, [true]) has no [trim]: [updateProfile] answers 500
    with the TypeError's message, and no call reaches the database. *)
Theorem updateProfile_name_not_a_string
    (E : env) (user : auth_user) (major interests custom_user_id : option json)
    (v : json) (w : world) :
  truthy v = true ->
  (forall s, v <> JStr s) ->
  updateProfile E user major interests custom_user_id (Some v) w
  = (Returned (res_status_json 500
                 (Some (JObj [("error", JStr "display_name.trim is not a function")]))),
     logged [ConsoleError "Error updating profile:"
               (TypeError "display_name.trim is not a function")] w).
Proof.
  intros Hv Hnot. unfold updateProfile, try_catch, mbind, M_bind.
  cbn [js_truthy]. rewrite Hv. cbn [negb].
  destruct v; try reflexivity. exfalso. apply (Hnot s). reflexivity.
Qed.

(** X16.  [updateProfile] does not look whether a custom id is taken: when
    another user holds it, the caller gets it too, the answer is 200, and
    two users then share the id. *)
Theorem updateProfile_writes_taken_custom_id
    (E : env) (id other : string) (em : option string) (major interests : option json)
    (c s : string) (w : world) (u uo : user_row) :
  healthy w ->
  trim s <> "" ->
  c <> "" ->
  other <> id ->
  users (committed w) !! id = Some u ->
  users (committed w) !! other = Some uo ->
  u_custom_user_id uo = Some c ->
  exists r w',
    updateProfile E (authenticated id em) major interests (Some (JStr c)) (Some (JStr s)) w
    = (Returned r, w')
    /\ status r = 200
    /\ (u_custom_user_id <$> users (committed w') !! id) = Some (Some c)
    /\ (u_custom_user_id <$> users (committed w') !! other) = Some (Some c)
    /\ ~ unique_custom_ids (committed w').
Proof.
  intros Hw Hs Hc Hother Hu Huo Hheld.
  destruct (updateProfile_run E id em major interests (Some (JStr c)) s w u Hw Hs Hu)
    as [evs Hrun].
  assert (Hparam : param_text E (or_null (Some (JStr c))) = Some c).
  { unfold or_null. cbn [js_truthy truthy].
    rewrite (proj2 (String.eqb_neq c "") Hc). reflexivity. }
  rewrite Hparam in Hrun.
  eexists _, _. split; [exact Hrun|].
  rewrite committed_logged. cbn [users].
  rewrite lookup_insert_eq, lookup_insert_ne by congruence. rewrite Huo.
  cbn [fmap option_fmap option_map]. rewrite Hheld.
  split; [reflexivity|]. split; [reflexivity|]. split; [reflexivity|].
  intros Hunique. apply Hother. symmetry.
  eapply (Hunique id other); cbn [users].
  - apply lookup_insert_eq.
  - rewrite lookup_insert_ne by congruence. exact Huo.
  - reflexivity.
  - exact Hheld.
Qed.

(** ** updateCustomId and the availability checks *)

Lemma updateCustomId_run_taken (E : env) (id : string) (em : option string)
    (custom_user_id : option json) (w : world) :
  healthy w ->
  taken_by_other (committed w) (param_text E custom_user_id) id ->
  exists evs,
    updateCustomId E (authenticated id em) custom_user_id w
    = (Returned (res_status_json 400
                   (Some (JObj [("error", JStr "This user ID is already taken")]))),
       logged evs (set_committed (committed w) w)).
Proof.
  intros [Htxn Hfaults] Htaken.
  pose proof (no_holder_iff (committed w) (param_text E custom_user_id) id) as Hrows.
  destruct w as [[us ps] t f fl ff tr].
  cbn [txn db_faults committed user_profiles users] in *. subst. run.
  destruct (List.filter _ _) as [|row rows] eqn:Hfilter.
  { exfalso. apply Hrows; auto. }
  run. eexists [_]. reflexivity.
Qed.

Lemma updateCustomId_run_free (E : env) (id : string) (em : option string)
    (custom_user_id : option json) (w : world) :
  healthy w ->
  ~ taken_by_other (committed w) (param_text E custom_user_id) id ->
  let change u := {| u_email := u_email u; u_display_name := u_display_name u;
                     u_photo_url := u_photo_url u;
                     u_custom_user_id := param_text E custom_user_id |} in
  exists evs,
    updateCustomId E (authenticated id em) custom_user_id w
    = (Returned (res_json (user_json id <$> (change <$> users (committed w) !! id))),
       logged evs
         (set_committed
            {| users := match users (committed w) !! id with
                        | Some u => <[id := change u]> (users (committed w))
                        | None => users (committed w)
                        end;
               user_profiles := user_profiles (committed w) |} w)).
Proof.
  intros [Htxn Hfaults] Hfree.
  apply (no_holder_iff (committed w) (param_text E custom_user_id) id) in Hfree.
  destruct w as [[us ps] t f fl ff tr].
  cbn [txn db_faults committed user_profiles users] in *. subst. run.
  rewrite Hfree. run.
  destruct (us !! id) as [u|] eqn:Hu; run; eexists [_; _]; f_equal; close_run.
Qed.

Lemma checkCustomId_run (E : env) (id : string) (em : option string)
    (custom_user_id : option json) (w : world) :
  healthy w ->
  js_truthy custom_user_id = true ->
  exists b evs,
    checkCustomId E (authenticated id em) custom_user_id w
    = (Returned (res_json (Some (JObj [("available", JBool b)]))),
       logged evs (set_committed (committed w) w))
    /\ (b = true <-> ~ taken_by_other (committed w) (param_text E custom_user_id) id).
Proof.
  intros [Htxn Hfaults] Htruthy.
  pose proof (no_holder_iff (committed w) (param_text E custom_user_id) id) as Hrows.
  destruct w as [[us ps] t f fl ff tr].
  cbn [txn db_faults committed user_profiles users] in *. subst.
  run. rewrite Htruthy. run.
  destruct (List.filter _ _) as [|row rows] eqn:Hfilter; run;
    eexists _, [_]; (split; [reflexivity|]).
  - split; [intros _; apply Hrows; reflexivity|reflexivity].
  - split; [discriminate|]. intros Hfree. apply Hrows in Hfree. discriminate.
Qed.

(** A row of the pre-check is a user that holds the id. *)
Lemma holder_taken (t : tables) (custom_user_id : option string) (id : string)
    (row : string * user_row) (rows : list (string * user_row)) :
  List.filter (holds_custom_id custom_user_id (Some id)) (map_to_list (users t)) = row :: rows ->
  taken_by_other t custom_user_id id.
Proof.
  intros Hrows. destruct row as [other u].
  assert (Hin : In (other, u)
                  (List.filter (holds_custom_id custom_user_id (Some id))
                     (map_to_list (users t)))).
  { rewrite Hrows. left. reflexivity. }
  apply filter_In in Hin as [Hin Hholds].
  apply list_elem_of_In, elem_of_map_to_list in Hin.
  apply holds_custom_id_spec in Hholds as (c & Hc & Hid & Hcu).
  exists c, other, u. auto.
Qed.

(** X17.  [updateCustomId] keeps custom ids unique: when no two users
    share one before the call, none do after it, whether it answers 400 or
    writes the id. *)
Theorem updateCustomId_keeps_ids_unique
    (E : env) (id : string) (em : option string) (custom_user_id : option json) (w : world) :
  healthy w ->
  unique_custom_ids (committed w) ->
  unique_custom_ids (committed (snd (updateCustomId E (authenticated id em) custom_user_id w))).
Proof.
  intros Hw Hunique.
  destruct (List.filter (holds_custom_id (param_text E custom_user_id) (Some id))
              (map_to_list (users (committed w)))) as [|row rows] eqn:Hfilter.
  - assert (Hfree : ~ taken_by_other (committed w) (param_text E custom_user_id) id)
      by (apply no_holder_iff; exact Hfilter).
    destruct (updateCustomId_run_free E id em custom_user_id w Hw Hfree) as [evs ->].
    cbn [snd]. rewrite committed_logged.
    destruct (users (committed w) !! id) as [u|] eqn:Hu; [|exact Hunique].
    intros a b ua ub c. cbn [users].
    destruct (decide (a = id)) as [->|Ha], (decide (b = id)) as [->|Hb];
      rewrite ?lookup_insert_eq, ?lookup_insert_ne by congruence; auto.
    + intros [= <-] Hb' Hc Hcb. cbn in Hc. exfalso. apply Hfree.
      exists c, b, ub. auto.
    + intros Ha' [= <-] Hca Hc. cbn in Hc. exfalso. apply Hfree.
      exists c, a, ua. auto.
    + apply Hunique.
  - assert (Htaken : taken_by_other (committed w) (param_text E custom_user_id) id)
      by (eapply holder_taken; exact Hfilter).
    destruct (updateCustomId_run_taken E id em custom_user_id w Hw Htaken) as [evs ->].
    exact Hunique.
Qed.

(** X18.  A request without [custom_user_id], or with null, is never a
    conflict: the pre-check compares with NULL and finds no row, and the
    caller's custom id is set to null. *)
Theorem updateCustomId_without_id_clears
    (E : env) (id : string) (em : option string) (custom_user_id : option json)
    (w : world) (u : user_row) :
  healthy w ->
  custom_user_id = None \/ custom_user_id = Some JNull ->
  users (committed w) !! id = Some u ->
  exists record w',
    updateCustomId E (authenticated id em) custom_user_id w
    = (Returned (res_json (Some record)), w')
    /\ jget "custom_user_id" record = Some JNull
    /\ (u_custom_user_id <$> users (committed w') !! id) = Some None.
Proof.
  intros Hw Hnull Hu.
  assert (Hparam : param_text E custom_user_id = None) by (destruct Hnull; subst; reflexivity).
  edestruct (updateCustomId_run_free E id em custom_user_id w Hw) as [evs Hrun].
  { rewrite Hparam. intros (c & other & uo & Hc & _). discriminate. }
  rewrite Hu, Hparam in Hrun.
  eexists _, _. split; [exact Hrun|].
  rewrite committed_logged. cbn [users]. rewrite lookup_insert_eq.
  split; reflexivity.
Qed.

(** X19.  A caller without a row in [users] gets 200 with no body from
    [updateCustomId], and nothing is written. *)
Theorem updateCustomId_without_user_row
    (E : env) (id : string) (em : option string) (custom_user_id : option json) (w : world) :
  healthy w ->
  ~ taken_by_other (committed w) (param_text E custom_user_id) id ->
  users (committed w) !! id = None ->
  exists w',
    updateCustomId E (authenticated id em) custom_user_id w = (Returned (res_json None), w')
    /\ committed w' = committed w.
Proof.
  intros Hw Hfree Hu.
  destruct (updateCustomId_run_free E id em custom_user_id w Hw Hfree) as [evs Hrun].
  rewrite Hu in Hrun. eexists. split; [exact Hrun|].
  rewrite committed_logged. destruct (committed w). reflexivity.
Qed.

(** X20.  Once [updateCustomId] has given a user the id [c], the check of
    [c] says "not available" to every other user and "available" to the
    holder. *)
Theorem updateCustomId_then_checkCustomId
    (E : env) (id other : string) (em em' : option string) (c : string)
    (w : world) (u : user_row) :
  healthy w ->
  c <> "" ->
  other <> id ->
  users (committed w) !! id = Some u ->
  ~ taken_by_other (committed w) (Some c) id ->
  let w1 := snd (updateCustomId E (authenticated id em) (Some (JStr c)) w) in
  fst (checkCustomId E (authenticated other em') (Some (JStr c)) w1)
  = Returned (res_json (Some (JObj [("available", JBool false)])))
  /\ fst (checkCustomId E (authenticated id em) (Some (JStr c)) w1)
     = Returned (res_json (Some (JObj [("available", JBool true)]))).
Proof.
  intros Hw Hc Hother Hu Hfree. cbv zeta.
  destruct (updateCustomId_run_free E id em (Some (JStr c)) w Hw Hfree) as [evs ->].
  cbn [snd]. rewrite Hu.
  assert (Htruthy : js_truthy (Some (JStr c)) = true).
  { cbn. rewrite (proj2 (String.eqb_neq c "") Hc). reflexivity. }
  cbn [fmap option_fmap option_map param_text].
  match goal with
  | |- context [checkCustomId E _ _ ?w1] =>
      assert (Hw1 : healthy w1) by (apply healthy_logged; exact Hw);
      assert (Hc1 : users (committed w1) !! id
                    = Some {| u_email := u_email u; u_display_name := u_display_name u;
                              u_photo_url := u_photo_url u; u_custom_user_id := Some c |})
        by (rewrite committed_logged; cbn [users]; apply lookup_insert_eq);
      assert (Hrest : forall o, o <> id ->
                users (committed w1) !! o = users (committed w) !! o)
        by (intros o Ho; rewrite committed_logged; cbn [users];
            apply lookup_insert_ne; congruence);
      generalize dependent w1
  end.
  intros w1 Hw1 Hc1 Hrest.
  split.
  - destruct (checkCustomId_run E other em' (Some (JStr c)) w1 Hw1 Htruthy)
      as (b & evs' & -> & Hb).
    cbn [fst]. destruct b; [|reflexivity].
    exfalso. apply (proj1 Hb); [reflexivity|].
    eexists c, id, _. split; [reflexivity|]. split; [congruence|].
    split; [exact Hc1|reflexivity].
  - destruct (checkCustomId_run E id em (Some (JStr c)) w1 Hw1 Htruthy)
      as (b & evs' & -> & Hb).
    cbn [fst]. destruct b; [reflexivity|].
    assert (Hnone : false = true); [|discriminate].
    apply Hb.
    intros (c' & o & uo & Hc' & Ho & Hlook & Hheld).
    rewrite Hrest in Hlook by exact Ho.
    apply Hfree. exists c', o, uo. auto.
Qed.

(** X21.  [checkCustomId] with no id, or a falsy one, answers
    [{available: true}] without asking the database.  With an id it asks,
    changes nothing, and answers true exactly when no user other than the
    caller holds the id. *)
Theorem checkCustomId_lookup
    (E : env) (user : auth_user) (id : string) (em : option string)
    (custom_user_id : option json) (w : world) :
  (js_truthy custom_user_id = false ->
     checkCustomId E user custom_user_id w
     = (Returned (res_json (Some (JObj [("available", JBool true)]))), w))
  /\ (js_truthy custom_user_id = true -> healthy w ->
      exists b w',
        checkCustomId E (authenticated id em) custom_user_id w
        = (Returned (res_json (Some (JObj [("available", JBool b)]))), w')
        /\ (b = true <-> ~ taken_by_other (committed w) (param_text E custom_user_id) id)
        /\ committed w' = committed w).
Proof.
  split.
  - intros Hfalsy. unfold checkCustomId, try_catch. rewrite Hfalsy. reflexivity.
  - intros Htruthy Hw.
    destruct (checkCustomId_run E id em custom_user_id w Hw Htruthy) as (b & evs & Hrun & Hb).
    exists b. eexists. split; [exact Hrun|]. split; [exact Hb|reflexivity].
Qed.

Lemma username_format_nonempty (username : string) :
  username_format_ok username = true -> String.eqb username "" = false.
Proof.
  destruct username; [discriminate|reflexivity].
Qed.

(** X22.  For a username of the accepted form, [checkUsername] and
    [checkCustomId] give the same answer: the two routes differ only in the
    format check of the first. *)
Theorem checkUsername_agrees_with_checkCustomId
    (E : env) (id : string) (em : option string) (username : string) (w : world) :
  healthy w ->
  username_format_ok username = true ->
  fst (checkUsername E (authenticated id em) username w)
  = fst (checkCustomId E (authenticated id em) (Some (JStr username)) w).
Proof.
  intros [Htxn Hfaults] Hok.
  pose proof (username_format_nonempty username Hok) as Hne.
  destruct w as [[us ps] t f fl ff tr].
  cbn [txn db_faults committed user_profiles users] in *. subst.
  run. rewrite Hok. cbn [js_truthy truthy]. rewrite Hne. run.
  cbn [param_text].
  destruct (List.filter _ _); reflexivity.
Qed.

(** ** The photo upload *)

(** X23.  [fileFilter] accepts exactly the three image types; for any other
    MIME type it hands over the "Invalid file type" error, and with that
    error [updateProfilePhoto] answers 400 carrying its message and sends no
    statement: the tables are untouched. *)
Theorem updateProfilePhoto_rejected_type
    (E : env) (user : auth_user) (mimetype : string) (w : world) :
  mimetype <> "image/jpeg" -> mimetype <> "image/png" -> mimetype <> "image/gif" ->
  let uploadsDir := path_join E (path_join E (cwd E) "uploads") "profile-photos" in
  uploadsDir ∈ files w \/ mjoin (head (fs_faults w)) = None ->
  exists err w' evs,
    fileFilter mimetype = inl err
    /\ updateProfilePhoto E user (UploadError err) w
       = (Returned (res_status_json 400
                      (Some (JObj [("error",
                                    JStr "Invalid file type. Only JPEG, PNG and GIF are allowed.")]))),
          w')
    /\ committed w' = committed w
    /\ trace w' = (trace w ++ evs)%list
    /\ List.filter is_statement evs = [].
Proof.
  intros H1 H2 H3 uploadsDir Hdir.
  assert (Hfilter : fileFilter mimetype
                    = inl (Error "Invalid file type. Only JPEG, PNG and GIF are allowed.")).
  { unfold fileFilter, allowedTypes. cbn [existsb].
    rewrite (proj2 (String.eqb_neq _ _) H1), (proj2 (String.eqb_neq _ _) H2),
      (proj2 (String.eqb_neq _ _) H3). reflexivity. }
  eexists. rewrite Hfilter.
  destruct w as [t tx f fl ff tr]. cbn [files fs_faults committed trace] in *.
  run. fold uploadsDir.
  destruct (bool_decide (uploadsDir ∈ fl)) eqn:Hpresent; run.
  - eexists _, [_; _; _]. split; [reflexivity|]. split; [reflexivity|].
    cbn [committed trace]. rewrite <- !app_assoc. repeat split.
  - destruct Hdir as [Hin|Hok].
    { apply bool_decide_eq_false in Hpresent. contradiction. }
    change (match match ff with [] => None | x :: _ => Some x end with
            | Some mx => mx | None => None end) with (mjoin (head ff)).
    rewrite Hok. run.
    eexists _, [_; _; _; _]. split; [reflexivity|]. split; [reflexivity|].
    cbn [committed trace]. rewrite <- !app_assoc. repeat split.
Qed.

Lemma fileFilter_accepts (mimetype : string) :
  fileFilter mimetype = inr true
  <-> mimetype = "image/jpeg" \/ mimetype = "image/png" \/ mimetype = "image/gif".
Proof.
  unfold fileFilter, allowedTypes. cbn [existsb].
  destruct (String.eqb_spec mimetype "image/jpeg") as [->|H1]; [cbn; tauto|].
  destruct (String.eqb_spec mimetype "image/png") as [->|H2]; [cbn; tauto|].
  destruct (String.eqb_spec mimetype "image/gif") as [->|H3]; [cbn; tauto|].
  cbn. split; [discriminate|]. intros [?|[?|?]]; contradiction.
Qed.

(** X24.  A stored upload sets the caller's [photo_url] to
    [/uploads/profile-photos/<filename>] and answers with that URL; the
    other columns of the row and the other rows stay. *)
Theorem updateProfilePhoto_stores_url
    (E : env) (id : string) (em : option string) (filename : string) (w : world) (u : user_row) :
  healthy w ->
  (let uploadsDir := path_join E (path_join E (cwd E) "uploads") "profile-photos" in
   uploadsDir ∈ files w \/ mjoin (head (fs_faults w)) = None) ->
  users (committed w) !! id = Some u ->
  let photoUrl := "/uploads/profile-photos/" ++ filename in
  exists w',
    updateProfilePhoto E (authenticated id em) (Stored filename) w
    = (Returned (res_json (Some (JObj [("photo_url", JStr photoUrl)]))), w')
    /\ users (committed w')
       = <[id := {| u_email := u_email u; u_display_name := u_display_name u;
                    u_photo_url := Some photoUrl;
                    u_custom_user_id := u_custom_user_id u |}]> (users (committed w))
    /\ user_profiles (committed w') = user_profiles (committed w).
Proof.
  intros [Htxn Hfaults] Hdir Hu photoUrl. cbv zeta in Hdir.
  set (uploadsDir := path_join E (path_join E (cwd E) "uploads") "profile-photos") in *.
  destruct w as [[us ps] tx f fl ff tr].
  cbn [txn db_faults files fs_faults committed users user_profiles trace] in *. subst.
  run. fold uploadsDir. fold photoUrl.
  destruct (bool_decide (uploadsDir ∈ fl)) eqn:Hpresent; run.
  - rewrite Hu. run. eexists. split; [reflexivity|]. split; reflexivity.
  - destruct Hdir as [Hin|Hok].
    { apply bool_decide_eq_false in Hpresent. contradiction. }
    change (match match ff with [] => None | x :: _ => Some x end with
            | Some mx => mx | None => None end) with (mjoin (head ff)).
    rewrite Hok. run. rewrite Hu. run.
    eexists. split; [reflexivity|]. split; reflexivity.
Qed.

Section KeepsFiles.

Context {A B : Type}.

Lemma keeps_files_bind (c : M A) (k : A -> M B) :
  keeps_files c -> (forall a, keeps_files (k a)) -> keeps_files (c ≫= k).
Proof.
  intros Hc Hk w. unfold mbind, M_bind.
  specialize (Hc w). destruct (c w) as [[a|e] w1]; cbn [snd] in *; [|exact Hc].
  specialize (Hk a w1). set_solver.
Qed.

Lemma keeps_files_try_catch (block : M A) (handler : js_error -> M A) :
  keeps_files block -> (forall e, keeps_files (handler e)) ->
  keeps_files (try_catch block handler).
Proof.
  intros Hc Hh w. unfold try_catch.
  specialize (Hc w). destruct (block w) as [[a|e] w1]; cbn [snd] in *; [exact Hc|].
  specialize (Hh e w1). set_solver.
Qed.

Lemma keeps_files_try_finally (block : M A) (finalizer : M unit) :
  keeps_files block -> keeps_files finalizer -> keeps_files (try_finally block finalizer).
Proof.
  intros Hc Hf w. unfold try_finally.
  specialize (Hc w). destruct (block w) as [o w1]. cbn [snd] in *.
  specialize (Hf w1). destruct (finalizer w1) as [[[]|e] w2]; cbn [snd] in *; set_solver.
Qed.

Lemma keeps_files_ret (a : A) : keeps_files (mret a : M A).
Proof. intros w. reflexivity. Qed.

Lemma keeps_files_throw (e : js_error) : keeps_files (throw e : M A).
Proof. intros w. reflexivity. Qed.

End KeepsFiles.

Lemma keeps_files_existsSync (path : string) : keeps_files (fs_existsSync path).
Proof. intros w. reflexivity. Qed.

Lemma keeps_files_mkdirSync (path : string) : keeps_files (fs_mkdirSync path).
Proof.
  intros w. unfold fs_mkdirSync, pop_fs_fault.
  destruct (mjoin _); cbn [snd files set_files log]; set_solver.
Qed.

Lemma keeps_files_upload (E : env) (u : upload_result) : keeps_files (upload E u).
Proof.
  intros w. destruct u; cbn [upload snd files set_files log]; set_solver.
Qed.

Lemma keeps_files_console_error (label : string) (e : js_error) :
  keeps_files (console_error label e).
Proof. intros w. reflexivity. Qed.

Lemma keeps_files_console_log (label : string) : keeps_files (console_log label).
Proof. intros w. reflexivity. Qed.

Lemma keeps_files_pool_query (E : env) (s : stmt) : keeps_files (pool_query E s).
Proof.
  intros w. unfold pool_query, pop_db_fault.
  destruct (mjoin _); [reflexivity|].
  destruct (exec E s _) as [e|[rows t]]; reflexivity.
Qed.

Lemma keeps_files_client_query (E : env) (s : stmt) : keeps_files (client_query E s).
Proof.
  intros w. unfold client_query, pop_db_fault.
  destruct (mjoin _); [reflexivity|].
  destruct s; try reflexivity;
    (destruct (exec E _ _) as [e|[rows t]]; [reflexivity|];
     unfold set_session; cbn [txn log]; destruct (txn w); reflexivity).
Qed.

Lemma keeps_files_pool_connect : keeps_files pool_connect.
Proof.
  intros w. unfold pool_connect, pop_db_fault. destruct (mjoin _); reflexivity.
Qed.

Lemma keeps_files_client_release : keeps_files client_release.
Proof. intros w. reflexivity. Qed.

Lemma keeps_files_js_trim (v : option json) : keeps_files (js_trim v).
Proof. intros w. destruct v as [[]|]; reflexivity. Qed.

Create HintDb keeps.
#[local] Hint Resolve keeps_files_existsSync keeps_files_mkdirSync keeps_files_upload
  keeps_files_console_error keeps_files_console_log keeps_files_pool_query
  keeps_files_client_query keeps_files_pool_connect keeps_files_client_release
  keeps_files_js_trim : keeps.

Ltac keeps_step :=
  first
    [ apply keeps_files_bind
    | apply keeps_files_try_catch
    | apply keeps_files_try_finally
    | apply keeps_files_ret
    | apply keeps_files_throw
    | solve [auto with keeps]
    | progress intros
    | progress cbv zeta
    | lazymatch goal with
      | |- keeps_files (if ?b then _ else _) => destruct b
      | |- keeps_files (match ?x with _ => _ end) => destruct x
      end ].

(** X25.  No operation but [deleteUser] ever removes a file: whatever the
    request and whatever fails, every file on disk before the call is there
    after it.  In particular [updateProfilePhoto] leaves on disk the photo
    the row named before. *)
Theorem only_deleteUser_removes_files (E : env) (op : operation) (w : world) :
  (forall user, op <> DeleteUser user) ->
  files w ⊆ files (snd (handler E op w)).
Proof.
  intros Hop. revert w. change (keeps_files (handler E op)).
  destruct op; cbn [handler];
    try (exfalso; eapply Hop; reflexivity).
  - unfold getProfile. repeat keeps_step.
  - unfold updateProfile. repeat keeps_step.
  - unfold updateAssessment. repeat keeps_step.
  - unfold deleteAssessmentResults. repeat keeps_step.
  - unfold updateCustomId. repeat keeps_step.
  - unfold checkCustomId. repeat keeps_step.
  - unfold updateProfilePhoto. repeat keeps_step.
  - unfold checkUsername. repeat keeps_step.
Qed.

(** ** The client of the pool *)

Section Traced.

Context {A : Type}.

(** An operation that logs the one event [ev], however it ends. *)
Lemma wp_traced (c : M A) (ev : event) (Q : outcome A -> world -> Prop) (w : world) :
  (forall w0, trace (snd (c w0)) = (trace w0 ++ [ev])%list) ->
  (forall o w', trace w' = (trace w ++ [ev])%list -> Q o w') ->
  wp c Q w.
Proof. intros Hc HQ. apply HQ, Hc. Qed.

(** An operation that leaves the world as it is. *)
Lemma wp_untraced (c : M A) (Q : outcome A -> world -> Prop) (w : world) :
  (forall w0, snd (c w0) = w0) ->
  (forall o, Q o w) ->
  wp c Q w.
Proof. intros Hc HQ. unfold wp. rewrite Hc. apply HQ. Qed.

End Traced.

(** [pool.connect()] logs its call and returns exactly when the call is not
    scheduled to fail. *)
Lemma wp_connect (Q : outcome unit -> world -> Prop) (w : world) :
  (forall o w', trace w' = (trace w ++ [Connect])%list ->
                next_call_ok w = match o with Returned _ => true | Thrown _ => false end ->
                Q o w') ->
  wp pool_connect Q w.
Proof.
  intros HQ. unfold wp, pool_connect, pop_db_fault. cbn [log db_faults].
  destruct (mjoin (head (db_faults w))) eqn:Hfault;
    (apply HQ; [reflexivity|unfold next_call_ok; rewrite Hfault; reflexivity]).
Qed.

Lemma trace_client_query (E : env) (s : stmt) (w : world) :
  trace (snd (client_query E s w)) = (trace w ++ [ClientQuery s])%list.
Proof.
  unfold client_query, pop_db_fault. destruct (mjoin _); [reflexivity|].
  destruct s; try reflexivity;
    (destruct (exec E _ _) as [e|[rows t]]; [reflexivity|];
     unfold set_session; cbn [txn log]; destruct (txn w); reflexivity).
Qed.

Lemma trace_pool_query (E : env) (s : stmt) (w : world) :
  trace (snd (pool_query E s w)) = (trace w ++ [PoolQuery s])%list.
Proof.
  unfold pool_query, pop_db_fault. destruct (mjoin _); [reflexivity|].
  destruct (exec E s _) as [e|[rows t]]; reflexivity.
Qed.

Lemma trace_client_release (w : world) :
  trace (snd (client_release w)) = (trace w ++ [Release])%list.
Proof. reflexivity. Qed.

Lemma trace_console_error (label : string) (e : js_error) (w : world) :
  trace (snd (console_error label e w)) = (trace w ++ [ConsoleError label e])%list.
Proof. reflexivity. Qed.

Lemma trace_console_log (label : string) (w : world) :
  trace (snd (console_log label w)) = (trace w ++ [ConsoleLog label])%list.
Proof. reflexivity. Qed.

Lemma trace_existsSync (path : string) (w : world) :
  trace (snd (fs_existsSync path w)) = (trace w ++ [ExistsSync path])%list.
Proof. reflexivity. Qed.

Lemma trace_mkdirSync (path : string) (w : world) :
  trace (snd (fs_mkdirSync path w)) = (trace w ++ [MkdirSync path])%list.
Proof. unfold fs_mkdirSync, pop_fs_fault. destruct (mjoin _); reflexivity. Qed.

Lemma trace_unlink (path : string) (w : world) :
  trace (snd (fs_unlink path w)) = (trace w ++ [Unlink path])%list.
Proof.
  unfold fs_unlink, pop_fs_fault. destruct (mjoin _); [reflexivity|].
  destruct (bool_decide _); reflexivity.
Qed.

Lemma trace_upload (E : env) (u : upload_result) (w : world) :
  trace (snd (upload E u w)) = (trace w ++ [Upload])%list.
Proof. destruct u; reflexivity. Qed.

Lemma world_js_trim (v : option json) (w : world) : snd (js_trim v w) = w.
Proof. destruct v as [[]|]; reflexivity. Qed.

Lemma world_join_cwd (E : env) (v : option json) (w : world) : snd (join_cwd E v w) = w.
Proof. destruct v as [[]|]; reflexivity. Qed.

Create HintDb traced.
#[local] Hint Resolve trace_client_query trace_pool_query trace_client_release
  trace_console_error trace_console_log trace_existsSync trace_mkdirSync trace_unlink
  trace_upload world_js_trim world_join_cwd : traced.

(** The events since [w0], and among them one release for the client taken
    and none otherwise. *)
Ltac release_leaf w0 :=
  repeat match goal with
         | H : trace _ = _ |- _ => rewrite H; clear H
         end;
  rewrite <- ?app_assoc;
  first [ eexists; split; [reflexivity|]
        | exists []; split; [symmetry; apply app_nil_r|] ];
  cbn [connects releases List.filter is_Connect is_Release length app Nat.eqb andb];
  try match goal with
      | H : next_call_ok w0 = _ |- _ => rewrite H
      end;
  split; [repeat constructor|reflexivity].

Ltac release_step w0 :=
  first
    [ progress cbv beta iota zeta
    | lazymatch goal with
      | |- wp (mbind _ _) _ _ => apply wp_bind
      | |- wp (try_catch _ _) _ _ => apply wp_try_catch
      | |- wp (try_finally _ _) _ _ => apply wp_try_finally
      | |- wp (mret _) _ _ => apply wp_ret
      | |- wp (throw _) _ _ => apply wp_throw
      | |- wp (if ?b then _ else _) _ _ => destruct b eqn:?
      | |- wp (match ?x with _ => _ end) _ _ => destruct x eqn:?
      | |- wp pool_connect _ _ => apply wp_connect; intros [?|?] ? ? ?
      | |- wp _ _ _ =>
          first [ eapply wp_traced; [solve [auto with traced]|]; intros [?|?] ? ?
                | eapply wp_untraced; [solve [auto with traced]|]; intros [?|?] ]
      | |- exists evs, _ => release_leaf w0
      end ].

(** X26.  A handler takes at most one client from the pool, and gives it
    back exactly once on every path, success or failure, when
    [pool.connect()] succeeded; a handler that took none, or whose connect
    failed, releases none. *)
Theorem client_released_exactly_once (E : env) (op : operation) (w : world) :
  exists evs,
    trace (snd (handler E op w)) = (trace w ++ evs)%list
    /\ (connects evs <= 1)%nat
    /\ releases evs = if (connects evs =? 1)%nat && next_call_ok w then 1%nat else 0%nat.
Proof.
  change (wp (handler E op)
            (fun _ w' => exists evs,
               trace w' = (trace w ++ evs)%list
               /\ (connects evs <= 1)%nat
               /\ releases evs
                  = if (connects evs =? 1)%nat && next_call_ok w then 1%nat else 0%nat) w).
  destruct op; cbn [handler].
  - unfold getProfile. repeat release_step w.
  - unfold updateProfile. repeat release_step w.
  - unfold updateAssessment. repeat release_step w.
  - unfold deleteAssessmentResults. repeat release_step w.
  - unfold updateCustomId. repeat release_step w.
  - unfold checkCustomId. repeat release_step w.
  - unfold updateProfilePhoto. repeat release_step w.
  - unfold deleteUser. repeat release_step w.
  - unfold checkUsername. repeat release_step w.
Qed.

(** ** Which handlers answer their own failures *)

Ltac answer_leaf :=
  eexists; first [ reflexivity
                 | split; [reflexivity|];
                   let H := fresh in intros H; first [reflexivity|discriminate H] ].

Ltac answer_step :=
  first
    [ progress cbv beta iota zeta
    | lazymatch goal with
      | |- wp (mbind _ _) _ _ => apply wp_bind
      | |- wp (try_catch _ _) _ _ => apply wp_try_catch
      | |- wp (try_finally _ _) _ _ => apply wp_try_finally
      | |- wp (mret _) _ _ => apply wp_ret
      | |- wp (throw _) _ _ => apply wp_throw
      | |- wp (if ?b then _ else _) _ _ => destruct b eqn:?
      | |- wp (match ?x with _ => _ end) _ _ => destruct x eqn:?
      | |- wp _ _ _ =>
          first [ eapply wp_returns; [solve [auto with quiet]|]; intros ? ?
                | eapply wp_any; intros [?|?] ? ]
      | |- exists r, _ => answer_leaf
      end ].

Lemma getProfile_answers (E : env) (user : auth_user) (w : world) :
  exists r, fst (getProfile E user w) = Returned r.
Proof.
  change (wp (getProfile E user) (fun o _ => exists r, o = Returned r) w).
  unfold getProfile. repeat answer_step.
Qed.

Lemma updateProfile_answers (E : env) (user : auth_user)
    (major interests custom_user_id display_name : option json) (w : world) :
  exists r, fst (updateProfile E user major interests custom_user_id display_name w)
            = Returned r.
Proof.
  change (wp (updateProfile E user major interests custom_user_id display_name)
            (fun o _ => exists r, o = Returned r) w).
  unfold updateProfile. repeat answer_step.
Qed.

Lemma updateAssessment_answers (E : env) (user : auth_user) (results : option json)
    (w : world) :
  exists r, fst (updateAssessment E user results w) = Returned r.
Proof.
  change (wp (updateAssessment E user results) (fun o _ => exists r, o = Returned r) w).
  unfold updateAssessment. repeat answer_step.
Qed.

Lemma updateCustomId_answers (E : env) (user : auth_user) (custom_user_id : option json)
    (w : world) :
  exists r, fst (updateCustomId E user custom_user_id w) = Returned r.
Proof.
  change (wp (updateCustomId E user custom_user_id) (fun o _ => exists r, o = Returned r) w).
  unfold updateCustomId. repeat answer_step.
Qed.

Lemma checkCustomId_answers (E : env) (user : auth_user) (custom_user_id : option json)
    (w : world) :
  exists r, fst (checkCustomId E user custom_user_id w) = Returned r.
Proof.
  change (wp (checkCustomId E user custom_user_id) (fun o _ => exists r, o = Returned r) w).
  unfold checkCustomId. repeat answer_step.
Qed.

Lemma checkUsername_answers (E : env) (user : auth_user) (username : string) (w : world) :
  exists r, fst (checkUsername E user username w) = Returned r.
Proof.
  change (wp (checkUsername E user username) (fun o _ => exists r, o = Returned r) w).
  unfold checkUsername. repeat answer_step.
Qed.

(** X27.  [getProfile], [updateProfile], [updateAssessment],
    [updateCustomId], [checkCustomId] and [checkUsername] never throw:
    whatever the request and whatever fails in the database, each of them
    sends an answer of its own. *)
Theorem six_handlers_always_answer (E : env) (op : operation) (w : world) :
  match op with
  | DeleteAssessmentResults _ _ | UpdateProfilePhoto _ _ | DeleteUser _ => True
  | _ => exists r, fst (handler E op w) = Returned r
  end.
Proof.
  destruct op; try exact I; cbn [handler].
  - apply getProfile_answers.
  - apply updateProfile_answers.
  - apply updateAssessment_answers.
  - apply updateCustomId_answers.
  - apply checkCustomId_answers.
  - apply checkUsername_answers.
Qed.

(** X28.  [getProfile], [updateAssessment], [checkCustomId] and
    [checkUsername] answer a failure with 500 and a fixed message: the text
    of the error that occurred is logged and never sent. *)
Theorem failure_message_is_fixed (E : env) (op : operation) (w : world) :
  let fixed msg :=
    exists r, fst (handler E op w) = Returned r
              /\ (status r = 500 -> body r = Some (JObj [("error", JStr msg)])) in
  match op with
  | GetProfile _ => fixed "Failed to fetch profile"
  | UpdateAssessment _ _ => fixed "Failed to update assessment"
  | CheckCustomId _ _ => fixed "Failed to check custom ID availability"
  | CheckUsername _ _ => fixed "Failed to check username availability"
  | _ => True
  end.
Proof.
  destruct op; try exact I; cbv zeta; cbn [handler].
  - change (wp (getProfile E user)
              (fun o _ => exists r, o = Returned r
                 /\ (status r = 500
                     -> body r = Some (JObj [("error", JStr "Failed to fetch profile")]))) w).
    unfold getProfile. repeat answer_step.
  - change (wp (updateAssessment E user results)
              (fun o _ => exists r, o = Returned r
                 /\ (status r = 500
                     -> body r = Some (JObj [("error", JStr "Failed to update assessment")]))) w).
    unfold updateAssessment. repeat answer_step.
  - change (wp (checkCustomId E user custom_user_id)
              (fun o _ => exists r, o = Returned r
                 /\ (status r = 500
                     -> body r = Some (JObj [("error",
                                             JStr "Failed to check custom ID availability")]))) w).
    unfold checkCustomId. repeat answer_step.
  - change (wp (checkUsername E user username)
              (fun o _ => exists r, o = Returned r
                 /\ (status r = 500
                     -> body r = Some (JObj [("error",
                                             JStr "Failed to check username availability")]))) w).
    unfold checkUsername. repeat answer_step.
Qed.

(** X29.  [deleteUser] takes its client outside the try block: when
    [pool.connect()] fails the handler throws that error, sends no answer of
    its own, sends no statement and releases nothing. *)
Theorem deleteUser_connect_failure_throws
    (E : env) (id : string) (em : option string) (err : js_error) (w : world) :
  id <> "" ->
  mjoin (head (db_faults w)) = Some err ->
  exists w',
    deleteUser E (authenticated id em) w = (Thrown err, w')
    /\ trace w' = (trace w ++ [Connect])%list
    /\ committed w' = committed w.
Proof.
  intros Hid Hfault.
  assert (Hne : String.eqb id "" = false) by (apply String.eqb_neq, Hid).
  unfold deleteUser, authenticated, mbind, M_bind, pool_connect, pop_db_fault.
  cbn [uid fmap option_fmap option_map js_truthy truthy log db_faults].
  rewrite Hne. cbn [negb]. rewrite Hfault.
  eexists. split; [reflexivity|]. split; reflexivity.
Qed.

(** ** errorHandler *)

(** X30.  [errorHandler] always answers with a usable status and message:
    500 when the error carries no status code (or 0) and the error's own
    code otherwise; "Internal Server Error" when the error's message is
    empty and the error's own message otherwise.  The stack of the error is
    part of the body in development mode and only then. *)
Theorem errorHandler_defaults (E : env) (err : js_error) :
  exists detail msg,
    body (errorHandler E err) = Some (JObj [("error", detail)])
    /\ jget "message" detail = Some (JStr msg)
    /\ (message err = "" -> msg = "Internal Server Error")
    /\ (message err <> "" -> msg = message err)
    /\ msg <> ""
    /\ (development E = true -> jget "stack" detail = Some (JStr (stack err)))
    /\ (jget "stack" detail = None <-> development E = false)
    /\ status (errorHandler E err) <> 0
    /\ (statusCode err = None \/ statusCode err = Some 0 -> status (errorHandler E err) = 500)
    /\ (forall c, statusCode err = Some c -> c <> 0 -> status (errorHandler E err) = c).
Proof.
  unfold errorHandler. cbn [status body res_status_json].
  set (msg := if String.eqb (message err) "" then "Internal Server Error" else message err).
  assert (Hmsg : (message err = "" -> msg = "Internal Server Error")
                 /\ (message err <> "" -> msg = message err) /\ msg <> "").
  { subst msg. destruct (String.eqb_spec (message err) "") as [Hm|Hm].
    - split; [reflexivity|]. split; [intros H; contradiction|discriminate].
    - split; [intros H; contradiction|]. split; [reflexivity|exact Hm]. }
  destruct Hmsg as (Hdefault & Hsame & Hne).
  eexists _, msg. split; [reflexivity|].
  split; [destruct (development E); reflexivity|].
  split; [exact Hdefault|]. split; [exact Hsame|]. split; [exact Hne|].
  split; [intros ->; reflexivity|].
  split; [destruct (development E); cbn; split; congruence|].
  destruct (statusCode err) as [c|]; [destruct (Z.eqb_spec c 0) as [->|Hc]|].
  - split; [discriminate|]. split; [reflexivity|]. intros c [= <-] H. contradiction.
  - split; [exact Hc|]. split; [intros [H|[= H]]; [discriminate|contradiction]|].
    intros c' [= <-] _. reflexivity.
  - split; [discriminate|]. split; [reflexivity|]. intros c H. discriminate.
Qed.

(** ** The further properties on the sample deployment *)

Lemma alice_in_sample : users (committed sample_world) !! "u1" = Some alice_row.
Proof. vm_compute. reflexivity. Qed.

Lemma bob_in_sample : users (committed sample_world) !! "u2" = Some bob_row.
Proof. vm_compute. reflexivity. Qed.

Lemma alice_profile_in_sample :
  user_profiles (committed sample_world) !! "u1" = Some alice_profile.
Proof. vm_compute. reflexivity. Qed.

Lemma bob_profile_not_in_sample : user_profiles (committed sample_world) !! "u2" = None.
Proof. vm_compute. reflexivity. Qed.

Lemma carol_not_in_sample : users (committed sample_world) !! "u9" = None.
Proof. vm_compute. reflexivity. Qed.

Lemma getProfile_existing_user_only_reads_witness :
  exists record w',
    getProfile sample_env (authenticated "u2" None) sample_world
    = (Returned (res_json (Some record)), w')
    /\ committed w' = committed sample_world
    /\ jget "completed_assessments" record = Some JNull.
Proof.
  destruct (getProfile_existing_user_only_reads sample_env "u2" None sample_world bob_row)
    as (record & w' & Hrun & _ & Hc & _ & Hnull).
  - split; reflexivity.
  - vm_compute. reflexivity.
  - exists record, w'. split; [exact Hrun|]. split; [exact Hc|].
    apply Hnull. vm_compute. reflexivity.
Defined.

Lemma getProfile_twice_same_answer_witness :
  fst (getProfile sample_env (authenticated "u9" None)
         (snd (getProfile sample_env (authenticated "u9" None) sample_world)))
  = fst (getProfile sample_env (authenticated "u9" None) sample_world).
Proof.
  apply (getProfile_twice_same_answer sample_env "u9" None sample_world).
  split; reflexivity.
Defined.

Lemma updateAssessment_then_getProfile_witness :
  exists record w',
    getProfile sample_env (authenticated "u1" None)
      (snd (updateAssessment sample_env (authenticated "u1" None) (Some (JArr [])) sample_world))
    = (Returned (res_json (Some record)), w')
    /\ jget "assessment_results" record = Some (JArr [])
    /\ jget "completed_assessments" record = Some (JNum 4).
Proof.
  destruct (updateAssessment_then_getProfile sample_env "u1" None (Some (JArr []))
              sample_world alice_row)
    as (record & w' & Hrun & Hres & Hcount).
  - split; reflexivity.
  - vm_compute. reflexivity.
  - exists record, w'. split; [exact Hrun|]. split; [exact Hres|].
    rewrite Hcount. vm_compute. reflexivity.
Defined.

Lemma deleteUser_then_getProfile_starts_over_witness :
  exists w',
    getProfile sample_env (authenticated "u1" None)
      (snd (deleteUser sample_env (authenticated "u1" None) sample_world))
    = (Returned (res_json (Some (joined_json "u1" (new_user None None)
                                   (Some default_profile)))), w').
Proof.
  destruct (deleteUser_then_getProfile_starts_over sample_env "u1" None sample_world)
    as (w' & Hrun & _).
  - discriminate.
  - split; reflexivity.
  - exists w'. exact Hrun.
Defined.

Lemma deleteUser_unauthenticated_witness :
  deleteUser sample_env {| uid := Some ""; email := None |} sample_world
  = (Returned (res_status_json 401 (Some (JObj [("error", JStr "Unauthorized")]))),
     sample_world).
Proof.
  apply deleteUser_unauthenticated. right. reflexivity.
Defined.

Lemma deleteUser_removes_photo_file_witness :
  exists r w',
    deleteUser sample_env (authenticated "u1" None) sample_world_with_photo = (Returned r, w')
    /\ status r = 200
    /\ files w' = files sample_world_with_photo ∖ {[ "/srv/app/uploads/profile-photos/a.png" ]}.
Proof.
  apply (deleteUser_removes_photo_file sample_env "u1" None sample_world_with_photo alice_row
           "/uploads/profile-photos/a.png").
  - discriminate.
  - split; reflexivity.
  - vm_compute. reflexivity.
  - reflexivity.
  - discriminate.
  - reflexivity.
  - vm_compute. reflexivity.
Defined.

Lemma deleteAssessmentResults_one_date_witness :
  exists kept w',
    deleteAssessmentResults sample_env (authenticated "u1" None) (Some [JStr "2024-01-02"])
      sample_world
    = (Returned
         (res_json
            (Some (profile_json "u1"
                     {| p_major := None; p_interests := JArr [];
                        p_completed_assessments := 3 - 1;
                        p_assessment_results := jsonb_agg kept |}))), w')
    /\ forall r, In r kept
                 <-> In r [result_of "2024-01-01"; result_of "2024-01-02";
                           result_of "2024-01-03"]
                     /\ exists x, field_text sample_env "date" r = Some x /\ x <> "2024-01-02".
Proof.
  destruct (deleteAssessmentResults_one_date sample_env "u1" None "2024-01-02" sample_world
              alice_profile
              [result_of "2024-01-01"; result_of "2024-01-02"; result_of "2024-01-03"])
    as (kept & w' & Hrun & _ & Hkept & _).
  - split; reflexivity.
  - vm_compute. reflexivity.
  - reflexivity.
  - exists kept, w'. split; [exact Hrun|exact Hkept].
Defined.

Lemma deleteAssessmentResults_no_dates_clears_all_witness :
  exists w',
    deleteAssessmentResults sample_env (authenticated "u1" None) (Some []) sample_world
    = (Returned
         (res_json
            (Some (profile_json "u1"
                     {| p_major := None; p_interests := JArr [];
                        p_completed_assessments := 3;
                        p_assessment_results := None |}))), w').
Proof.
  destruct (deleteAssessmentResults_no_dates_clears_all sample_env "u1" None sample_world
              alice_profile
              [result_of "2024-01-01"; result_of "2024-01-02"; result_of "2024-01-03"])
    as (w' & Hrun & _).
  - split; reflexivity.
  - vm_compute. reflexivity.
  - reflexivity.
  - exists w'. exact Hrun.
Defined.

Lemma deleteAssessmentResults_no_profile_witness :
  exists w',
    deleteAssessmentResults sample_env (authenticated "u2" None) (Some [JStr "2024-01-01"])
      sample_world
    = (Returned (res_status_json 404 (Some (JObj [("error", JStr "Profile not found")]))), w')
    /\ committed w' = committed sample_world.
Proof.
  apply deleteAssessmentResults_no_profile.
  - split; reflexivity.
  - vm_compute. reflexivity.
Defined.

Lemma deleteAssessmentResults_rethrows_witness :
  fst (deleteAssessmentResults sample_env (authenticated "u1" None) None sample_world)
  = Thrown (TypeError "Cannot read properties of undefined (reading 'length')")
  /\ fst (deleteAssessmentResults sample_env (authenticated "u1" None)
            (Some [JStr "2024-01-01"]) sample_world_down)
     = Thrown (Error "connection refused").
Proof.
  split.
  - destruct (deleteAssessmentResults_rethrows sample_env (authenticated "u1" None) None
                sample_world) as [Hnone _].
    rewrite Hnone; reflexivity.
  - destruct (deleteAssessmentResults_rethrows sample_env (authenticated "u1" None)
                (Some [JStr "2024-01-01"]) sample_world_down) as (_ & Hfault & _).
    apply (Hfault [JStr "2024-01-01"] (Error "connection refused")); reflexivity.
Defined.

Lemma deleteAssessmentResults_counter_below_zero_witness :
  exists record w' n,
    deleteAssessmentResults sample_env (authenticated "u1" None)
      (Some [JStr "a"; JStr "b"; JStr "c"; JStr "d"]) sample_world
    = (Returned (res_json (Some record)), w')
    /\ jget "completed_assessments" record = Some (JNum n)
    /\ n = 3 - 4
    /\ n < 0.
Proof.
  apply (deleteAssessmentResults_counter_below_zero sample_env "u1" None
           [JStr "a"; JStr "b"; JStr "c"; JStr "d"] sample_world alice_profile
           (Some (JArr [result_of "2024-01-01"; result_of "2024-01-02";
                        result_of "2024-01-03"]))).
  - split; reflexivity.
  - vm_compute. reflexivity.
  - vm_compute. reflexivity.
  - simpl. lia.
Defined.

Lemma updateProfile_without_profile_row_witness :
  exists w',
    updateProfile sample_env (authenticated "u2" None) None None None (Some (JStr "Bob"))
      sample_world
    = (Returned (res_json None), w')
    /\ (u_display_name <$> users (committed w') !! "u2") = Some (Some "Bob").
Proof.
  destruct (updateProfile_without_profile_row sample_env "u2" None None None None "Bob"
              sample_world bob_row) as (w' & Hrun & Hname & _).
  - split; reflexivity.
  - discriminate.
  - vm_compute. reflexivity.
  - vm_compute. reflexivity.
  - exists w'. split; [exact Hrun|exact Hname].
Defined.

Lemma updateProfile_returns_updated_record_witness :
  exists record w',
    updateProfile sample_env (authenticated "u1" None) None None None (Some (JStr " Alice "))
      sample_world
    = (Returned (res_json (Some record)), w')
    /\ jget "display_name" record = Some (JStr "Alice")
    /\ jget "completed_assessments" record = Some (JNum 3)
    /\ jget "major" record = Some JNull
    /\ jget "interests" record = Some (JArr []).
Proof.
  destruct (updateProfile_returns_updated_record sample_env "u1" None None None None " Alice "
              sample_world alice_row alice_profile)
    as (record & w' & p' & Hrun & Hname & Hcount & _ & Hmajor & Hinterests & _).
  - split; reflexivity.
  - discriminate.
  - vm_compute. reflexivity.
  - vm_compute. reflexivity.
  - exists record, w'. split; [exact Hrun|]. split; [exact Hname|]. split; [exact Hcount|].
    split; [apply Hmajor; reflexivity|apply Hinterests; reflexivity].
Defined.

Lemma updateProfile_stores_trimmed_name_witness :
  exists r w' name,
    updateProfile sample_env (authenticated "u1" None) None None None (Some (JStr "  Al ice  "))
      sample_world
    = (Returned r, w')
    /\ (u_display_name <$> users (committed w') !! "u1") = Some (Some name)
    /\ name <> "".
Proof.
  destruct (updateProfile_stores_trimmed_name sample_env "u1" None None None None "  Al ice  "
              sample_world alice_row) as (r & w' & name & Hrun & Hname & Hne & _).
  - split; reflexivity.
  - discriminate.
  - vm_compute. reflexivity.
  - exists r, w', name. auto.
Defined.

Lemma updateProfile_name_not_a_string_witness :
  updateProfile sample_env (authenticated "u1" None) None None None (Some (JNum 5)) sample_world
  = (Returned (res_status_json 500
                 (Some (JObj [("error", JStr "display_name.trim is not a function")]))),
     logged [ConsoleError "Error updating profile:"
               (TypeError "display_name.trim is not a function")] sample_world).
Proof.
  apply updateProfile_name_not_a_string.
  - reflexivity.
  - discriminate.
Defined.

Lemma updateProfile_writes_taken_custom_id_witness :
  exists r w',
    updateProfile sample_env (authenticated "u1" None) None None (Some (JStr "bob"))
      (Some (JStr "Alice")) sample_world
    = (Returned r, w')
    /\ status r = 200
    /\ ~ unique_custom_ids (committed w').
Proof.
  destruct (updateProfile_writes_taken_custom_id sample_env "u1" "u2" None None None
              "bob" "Alice" sample_world alice_row bob_row)
    as (r & w' & Hrun & Hstatus & _ & _ & Hshared).
  - split; reflexivity.
  - discriminate.
  - discriminate.
  - discriminate.
  - vm_compute. reflexivity.
  - vm_compute. reflexivity.
  - reflexivity.
  - exists r, w'. auto.
Defined.

Lemma sample_ids_unique : unique_custom_ids (committed sample_world).
Proof.
  intros a b ua ub c Ha Hb Hca Hcb. cbn in Ha, Hb.
  apply lookup_insert_Some in Ha as [[<- <-]|[Hna Ha]];
    apply lookup_insert_Some in Hb as [[<- <-]|[Hnb Hb]];
    try apply lookup_singleton_Some in Ha as [<- <-];
    try apply lookup_singleton_Some in Hb as [<- <-];
    cbn in Hca, Hcb; congruence.
Qed.

Lemma updateCustomId_keeps_ids_unique_witness :
  unique_custom_ids
    (committed (snd (updateCustomId sample_env (authenticated "u1" None) (Some (JStr "alice_2"))
                       sample_world))).
Proof.
  apply updateCustomId_keeps_ids_unique.
  - split; reflexivity.
  - exact sample_ids_unique.
Defined.

Lemma updateCustomId_without_id_clears_witness :
  exists record w',
    updateCustomId sample_env (authenticated "u1" None) None sample_world
    = (Returned (res_json (Some record)), w')
    /\ jget "custom_user_id" record = Some JNull
    /\ (u_custom_user_id <$> users (committed w') !! "u1") = Some None.
Proof.
  apply (updateCustomId_without_id_clears sample_env "u1" None None sample_world alice_row).
  - split; reflexivity.
  - left. reflexivity.
  - vm_compute. reflexivity.
Defined.

Lemma updateCustomId_without_user_row_witness :
  exists w',
    updateCustomId sample_env (authenticated "u9" None) (Some (JStr "zed")) sample_world
    = (Returned (res_json None), w')
    /\ committed w' = committed sample_world.
Proof.
  apply updateCustomId_without_user_row.
  - split; reflexivity.
  - apply no_holder_iff. vm_compute. reflexivity.
  - vm_compute. reflexivity.
Defined.

Lemma updateCustomId_then_checkCustomId_witness :
  let w1 := snd (updateCustomId sample_env (authenticated "u1" None) (Some (JStr "alice_2"))
                   sample_world) in
  fst (checkCustomId sample_env (authenticated "u2" None) (Some (JStr "alice_2")) w1)
  = Returned (res_json (Some (JObj [("available", JBool false)])))
  /\ fst (checkCustomId sample_env (authenticated "u1" None) (Some (JStr "alice_2")) w1)
     = Returned (res_json (Some (JObj [("available", JBool true)]))).
Proof.
  apply (updateCustomId_then_checkCustomId sample_env "u1" "u2" None None "alice_2"
           sample_world alice_row).
  - split; reflexivity.
  - discriminate.
  - discriminate.
  - vm_compute. reflexivity.
  - apply no_holder_iff. vm_compute. reflexivity.
Defined.

Lemma checkCustomId_lookup_witness :
  checkCustomId sample_env (authenticated "u1" None) None sample_world
  = (Returned (res_json (Some (JObj [("available", JBool true)]))), sample_world)
  /\ exists b w',
       checkCustomId sample_env (authenticated "u1" None) (Some (JStr "bob")) sample_world
       = (Returned (res_json (Some (JObj [("available", JBool b)]))), w')
       /\ committed w' = committed sample_world.
Proof.
  split.
  - apply (checkCustomId_lookup sample_env (authenticated "u1" None) "u1" None None
             sample_world).
    reflexivity.
  - destruct (checkCustomId_lookup sample_env (authenticated "u1" None) "u1" None
                (Some (JStr "bob")) sample_world) as [_ Hlookup].
    destruct Hlookup as (b & w' & Hrun & _ & Hc).
    + reflexivity.
    + split; reflexivity.
    + exists b, w'. auto.
Defined.

Lemma checkUsername_agrees_with_checkCustomId_witness :
  fst (checkUsername sample_env (authenticated "u1" None) "bob" sample_world)
  = fst (checkCustomId sample_env (authenticated "u1" None) (Some (JStr "bob")) sample_world).
Proof.
  apply checkUsername_agrees_with_checkCustomId.
  - split; reflexivity.
  - reflexivity.
Defined.

Lemma updateProfilePhoto_rejected_type_witness :
  exists err w' evs,
    fileFilter "application/pdf" = inl err
    /\ updateProfilePhoto sample_env (authenticated "u1" None) (UploadError err) sample_world
       = (Returned (res_status_json 400
                      (Some (JObj [("error",
                                    JStr "Invalid file type. Only JPEG, PNG and GIF are allowed.")]))),
          w')
    /\ committed w' = committed sample_world
    /\ trace w' = (trace sample_world ++ evs)%list
    /\ List.filter is_statement evs = [].
Proof.
  apply (updateProfilePhoto_rejected_type sample_env (authenticated "u1" None)
           "application/pdf" sample_world).
  - discriminate.
  - discriminate.
  - discriminate.
  - right. reflexivity.
Defined.

Lemma updateProfilePhoto_stores_url_witness :
  exists w',
    updateProfilePhoto sample_env (authenticated "u1" None) (Stored "b.png") sample_world
    = (Returned (res_json (Some (JObj [("photo_url", JStr "/uploads/profile-photos/b.png")]))),
       w')
    /\ (u_photo_url <$> users (committed w') !! "u1")
       = Some (Some "/uploads/profile-photos/b.png").
Proof.
  destruct (updateProfilePhoto_stores_url sample_env "u1" None "b.png" sample_world alice_row)
    as (w' & Hrun & Hu & _).
  - split; reflexivity.
  - right. reflexivity.
  - vm_compute. reflexivity.
  - exists w'. split; [exact Hrun|]. rewrite Hu, lookup_insert_eq. reflexivity.
Defined.

Lemma only_deleteUser_removes_files_witness :
  files sample_world_with_photo
  ⊆ files (snd (handler sample_env (UpdateProfilePhoto (authenticated "u1" None) (Stored "b.png"))
                  sample_world_with_photo)).
Proof.
  apply only_deleteUser_removes_files.
  intros user H. discriminate H.
Defined.

Lemma deleteUser_connect_failure_throws_witness :
  exists w',
    deleteUser sample_env (authenticated "u1" None) sample_world_down
    = (Thrown (Error "connection refused"), w')
    /\ trace w' = (trace sample_world_down ++ [Connect])%list
    /\ committed w' = committed sample_world_down.
Proof.
  apply deleteUser_connect_failure_throws.
  - discriminate.
  - reflexivity.
Defined.
